(** * StockTradebyZ: the screening pipeline of [select_stock.py]

    A shallow embedding of [load_data], [load_config],
    [instantiate_selector] and [run_select_stock], and the properties of
    the screening pipeline that hold of them.

    Modelling conventions.
    - Python values read from JSON are the inductive [json]; numbers are
      the integers (no function below inspects a non-integer number).
    - Strings are [String.string], the bytes of UTF-8 text.  [strip]
      removes the white space characters of [str.isspace], each in its
      encoding of one to three bytes; [lower] changes the ASCII letters,
      the only characters that lower to a letter of [all].
    - Exceptions are the inductive [exn]; a computation is a pair of the
      events it emitted (log records and calls to the collaborators, in
      program order) and its result, [Ret v] or [Raise e].  Events emitted
      before an exception are kept.
    - pandas, pathlib, the file system, the [Selector] module and the
      strategies it holds are collaborators: the record [World] gives
      their answers as functions of their arguments. *)

From Stdlib Require Import String Ascii List ZArith Bool Lia.
From Stdlib Require Import Sorted Permutation.
Import ListNotations.
Local Open Scope string_scope.
Local Open Scope list_scope.
Set Warnings "-register-all".

(** ** Exceptions and results *)

Inductive exn : Type :=
| ValueError
| TypeError
| AttributeError
| KeyError
| ModuleNotFoundError
| ImportError
| OSError
| OtherException (name : string)     (* any other subclass of Exception *)
| SystemExit (code : Z)              (* BaseException only *)
| KeyboardInterrupt                  (* BaseException only *)
| OtherBaseException (name : string).
    (* any other class outside Exception, as a collaborator may raise *)

(** [except Exception] catches everything but the classes that derive
    from [BaseException] and not from [Exception]. *)
Definition is_Exception (e : exn) : bool :=
  match e with
  | SystemExit _ | KeyboardInterrupt | OtherBaseException _ => false
  | _ => true
  end.

Inductive result (A : Type) : Type :=
| Ret (a : A)
| Raise (e : exn).
Arguments Ret {A} a.
Arguments Raise {A} e.

(** ** JSON values as Python sees them after [json.load] *)

Inductive json : Type :=
| JNull
| JBool (b : bool)
| JInt (n : Z)
| JString (s : string)
| JArray (items : list json)
| JObject (members : list (string * json)).

(** Python truthiness: [if x], [not x]. *)
Definition truthy (v : json) : bool :=
  match v with
  | JNull => false
  | JBool b => b
  | JInt n => negb (n =? 0)%Z
  | JString s => negb (s =? "")
  | JArray l => match l with [] => false | _ => true end
  | JObject kv => match kv with [] => false | _ => true end
  end.

(** [x is False]: identity with the singleton [False]; JSON [false] is the
    only document value that loads to it. *)
Definition is_False (v : json) : bool :=
  match v with
  | JBool false => true
  | _ => false
  end.

Fixpoint lookup (key : string) (kv : list (string * json)) : option json :=
  match kv with
  | [] => None
  | (k, v) :: rest => if k =? key then Some v else lookup key rest
  end.

(** [key in d] for a dict [d]. *)
Definition has_key (key : string) (kv : list (string * json)) : bool :=
  match lookup key kv with Some _ => true | None => false end.

(** [cfg.get(key, default)]: only a dict has [get]. *)
Definition py_get (cfg : json) (key : string) (default : json) : result json :=
  match cfg with
  | JObject kv =>
      Ret (match lookup key kv with Some v => v | None => default end)
  | _ => Raise AttributeError
  end.

Definition chars (s : string) : list json :=
  map (fun c => JString (String c "")) (list_ascii_of_string s).

(** [for cfg in v]: a list yields its items, a dict its keys, a string its
    characters; nothing else is iterable. *)
Definition py_iter (v : json) : result (list json) :=
  match v with
  | JArray l => Ret l
  | JObject kv => Ret (map (fun p => JString (fst p)) kv)
  | JString s => Ret (chars s)
  | _ => Raise TypeError
  end.

(** ** Python dicts: insertion-ordered association lists *)

Module PyDict.
Section Dict.
Context {K V : Type} (eqb : K -> K -> bool).

(** [d[k] = v]: an existing key keeps its place (and its key object), a
    new key goes last. *)
Fixpoint set (k : K) (v : V) (d : list (K * V)) : list (K * V) :=
  match d with
  | [] => [(k, v)]
  | (k', v') :: rest =>
      if eqb k' k then (k', v) :: rest else (k', v') :: set k v rest
  end.

Fixpoint get (k : K) (d : list (K * V)) : option V :=
  match d with
  | [] => None
  | (k', v') :: rest => if eqb k' k then Some v' else get k rest
  end.

Definition mem (k : K) (d : list (K * V)) : bool :=
  match get k d with Some _ => true | None => false end.
End Dict.
End PyDict.

(** Keys of the result dict are aliases read from the configuration, so
    any JSON value: lists and dicts are unhashable, and [True == 1],
    [False == 0] as keys. *)
Definition hashable (v : json) : bool :=
  match v with
  | JArray _ | JObject _ => false
  | _ => true
  end.

Definition num_of_bool (b : bool) : Z := if b then 1%Z else 0%Z.

Definition key_eqb (a b : json) : bool :=
  match a, b with
  | JNull, JNull => true
  | JBool x, JBool y => Bool.eqb x y
  | JBool x, JInt n | JInt n, JBool x => (num_of_bool x =? n)%Z
  | JInt n, JInt m => (n =? m)%Z
  | JString s, JString t => (s =? t)
  | _, _ => false
  end.

(** What a hashable JSON value is as a key: [True] and [False] are the
    numbers 1 and 0. *)
Inductive key : Type := KNone | KNum (n : Z) | KStr (s : string).

Definition key_of (v : json) : option key :=
  match v with
  | JNull => Some KNone
  | JBool b => Some (KNum (num_of_bool b))
  | JInt n => Some (KNum n)
  | JString s => Some (KStr s)
  | JArray _ | JObject _ => None
  end.

(** ** Dates and series *)

(** A pandas timestamp (nanoseconds since the epoch) or the missing value
    [NaT]. *)
Inductive Timestamp : Type :=
| NaT
| TS (ns : Z).

(** [a > b]: every comparison with [NaT] is false. *)
Definition ts_gt (a b : Timestamp) : bool :=
  match a, b with
  | TS x, TS y => (y <? x)%Z
  | _, _ => false
  end.

(** One row of a history file: the parsed [date] column, the other columns
    as they are in the file. *)
Record bar : Type := { bar_date : Timestamp; bar_rest : list string }.

Definition DataFrame : Type := list bar.
Definition Data : Type := list (string * DataFrame).
Definition Picks : Type := list string.
Definition Results : Type := list (json * Picks).

(** The order of [df.sort_values("date")]: ascending, missing dates
    last. *)
Definition date_leb (a b : Timestamp) : bool :=
  match a, b with
  | TS x, TS y => (x <=? y)%Z
  | TS _, NaT => true
  | NaT, TS _ => false
  | NaT, NaT => true
  end.

Fixpoint insert_bar (b : bar) (df : DataFrame) : DataFrame :=
  match df with
  | [] => [b]
  | b' :: rest =>
      if date_leb (bar_date b) (bar_date b') then b :: b' :: rest
      else b' :: insert_bar b rest
  end.

(** An ascending sort that keeps the order of the file among the rows of
    one date.  pandas' default sort gives no such order among them, so
    [sort_values] itself is an answer of the [World]; this sort is the
    one of the small world below, whose files have no two rows of one
    date. *)
Fixpoint sort_by_date (df : DataFrame) : DataFrame :=
  match df with
  | [] => []
  | b :: rest => insert_bar b (sort_by_date rest)
  end.

(** The later of two dates, a missing date being skipped. *)
Definition ts_max (a b : Timestamp) : Timestamp :=
  match a, b with
  | NaT, _ => b
  | _, NaT => a
  | TS x, TS y => TS (Z.max x y)
  end.

(** The latest date of the rows of a column that has rows; [NaT] when
    no row has a date. *)
Definition latest_date (df : DataFrame) : Timestamp :=
  fold_right (fun b acc => ts_max (bar_date b) acc) NaT df.

(** What [df["date"].max()] evaluates to: the float [nan] for a frame
    without rows (its column holds no timestamps), else a timestamp,
    which is [NaT] when no row has a date. *)
Inductive scalar : Type :=
| Nan
| Stamp (t : Timestamp).

Definition date_max (df : DataFrame) : scalar :=
  match df with
  | [] => Nan
  | _ :: _ => Stamp (latest_date df)
  end.

(** [a > b] on these values: timestamps compare as [ts_gt], [nan > nan]
    is false, and a timestamp (or [NaT]) does not compare with a
    float. *)
Definition scalar_gt (a b : scalar) : result bool :=
  match a, b with
  | Stamp x, Stamp y => Ret (ts_gt x y)
  | Nan, Nan => Ret false
  | _, _ => Raise TypeError
  end.

(** The builtin [max] over an iterable: the first item, replaced by each
    later item that compares greater; [ValueError] on no item, and the
    exception of a comparison that fails. *)
Fixpoint max_from (cur : scalar) (rest : list scalar) : result scalar :=
  match rest with
  | [] => Ret cur
  | y :: rest' =>
      match scalar_gt y cur with
      | Ret b => max_from (if b then y else cur) rest'
      | Raise e => Raise e
      end
  end.

Definition py_max (l : list scalar) : result scalar :=
  match l with
  | [] => Raise ValueError
  | x :: rest => max_from x rest
  end.

(** ** Events and the computation monad *)

Inductive level : Type := INFO | WARNING | ERROR.

(** The log records of [select_stock.py], one constructor per format
    string, with the arguments it is given. *)
Inductive message : Type :=
| MsgCsvMissing (name : string)
| MsgConfigMissing (cfg_path : string)
| MsgNoSelector
| MsgDataDirMissing (data_dir : string)
| MsgEmptyPool
| MsgNoData
| MsgDefaultDate (trade_date : Timestamp)
| MsgEtfInfoFailed (e : exn)
| MsgSkipConfig (cfg : json) (e : exn)
| MsgBlank
| MsgResultHeader (alias : json)
| MsgTradeDate (trade_date : Timestamp)
| MsgCount (n : nat)
| MsgDetailRow (info_parts : list string)
| MsgDetailMissing (codes : list string)
| MsgPicks (codes : list string).

Inductive event : Type :=
| Log (lv : level) (m : message)
| ReadCsv (fp : string)                           (* [pd.read_csv(fp, ...)] *)
| Construct (cls_name : json) (params : json)     (* the call of the class on [params] *)
| Select (alias : json) (trade_date : Timestamp). (* [selector.select(...)] *)

Definition M (A : Type) : Type := list event * result A.

Definition ret {A} (a : A) : M A := ([], Ret a).
Definition raise {A} (e : exn) : M A := ([], Raise e).
Definition lift {A} (r : result A) : M A := ([], r).
Definition emit (ev : event) : M unit := ([ev], Ret tt).
Definition logger (lv : level) (m : message) : M unit := emit (Log lv m).

Definition bind {A B} (m : M A) (f : A -> M B) : M B :=
  match snd m with
  | Ret a => (fst m ++ fst (f a), snd (f a))
  | Raise e => (fst m, Raise e)
  end.

(** [try: m / except Exception as e: h e]. *)
Definition try_except {A} (m : M A) (h : exn -> M A) : M A :=
  match snd m with
  | Ret a => m
  | Raise e =>
      if is_Exception e then (fst m ++ fst (h e), snd (h e)) else m
  end.

Declare Scope py_scope.
Delimit Scope py_scope with py.
Notation "x <- m ;; k" := (bind m (fun x => k))
  (at level 61, m at next level, right associativity) : py_scope.
Notation "m ;; k" := (bind m (fun _ => k))
  (at level 61, right associativity) : py_scope.
Local Open Scope py_scope.

(** ** String methods *)

(** [c.lower()] on an ASCII letter. *)
Definition lower_ascii (c : ascii) : ascii :=
  let n := N_of_ascii c in
  if ((65 <=? n) && (n <=? 90))%N then ascii_of_N (n + 32) else c.

Fixpoint lower (s : string) : string :=
  match s with
  | EmptyString => EmptyString
  | String c rest => String (lower_ascii c) (lower rest)
  end.

(** [c.isspace()] for a character of one byte: tab, line feed, vertical
    tab, form feed, carriage return, the four separators 28 to 31,
    space. *)
Definition is_space (c : ascii) : bool :=
  let n := N_of_ascii c in
  (((9 <=? n) && (n <=? 13)) || ((28 <=? n) && (n <=? 32)))%N.

(** [c.isspace()] for a character of two bytes: U+0085 and U+00A0. *)
Definition is_space2 (c1 c2 : ascii) : bool :=
  let a := N_of_ascii c1 in
  let b := N_of_ascii c2 in
  ((a =? 194) && ((b =? 133) || (b =? 160)))%N.

(** [c.isspace()] for a character of three bytes: U+1680, U+2000 to
    U+200A, U+2028, U+2029, U+202F, U+205F and U+3000. *)
Definition is_space3 (c1 c2 c3 : ascii) : bool :=
  let a := N_of_ascii c1 in
  let b := N_of_ascii c2 in
  let c := N_of_ascii c3 in
  (((a =? 225) && (b =? 154) && (c =? 128))
   || ((a =? 226) && (b =? 128)
       && (((128 <=? c) && (c <=? 138))
           || (c =? 168) || (c =? 169) || (c =? 175)))
   || ((a =? 226) && (b =? 129) && (c =? 159))
   || ((a =? 227) && (b =? 128) && (c =? 128)))%N.

(** [t] is one white space character. *)
Definition space_char (t : string) : bool :=
  match t with
  | String c1 EmptyString => is_space c1
  | String c1 (String c2 EmptyString) => is_space2 c1 c2
  | String c1 (String c2 (String c3 EmptyString)) => is_space3 c1 c2 c3
  | _ => false
  end.

(** [s.lstrip()]: the white space characters at the head are dropped. *)
Fixpoint lstrip (s : string) : string :=
  match s with
  | EmptyString => EmptyString
  | String c1 r1 =>
      if is_space c1 then lstrip r1
      else
        match r1 with
        | EmptyString => s
        | String c2 r2 =>
            if is_space2 c1 c2 then lstrip r2
            else
              match r2 with
              | EmptyString => s
              | String c3 r3 => if is_space3 c1 c2 c3 then lstrip r3 else s
              end
        end
  end.

(** [s.rstrip()]: from the right, what is left of the tail is kept, and
    a character that is then alone and white space is dropped. *)
Fixpoint rstrip (s : string) : string :=
  match s with
  | EmptyString => EmptyString
  | String c rest =>
      if space_char (String c (rstrip rest)) then EmptyString
      else String c (rstrip rest)
  end.

(** [s.strip()]. *)
Definition strip (s : string) : string := rstrip (lstrip s).

(** A run of white space characters. *)
Inductive blank : string -> Prop :=
| blank_nil : blank EmptyString
| blank_cons (t s : string) :
    space_char t = true -> blank s -> blank (t ++ s).

Definition starts_with_space (s : string) : Prop :=
  exists t r, space_char t = true /\ s = (t ++ r)%string.

Definition ends_with_space (s : string) : Prop :=
  exists t r, space_char t = true /\ s = (r ++ t)%string.

(** [c] is [seg] without the white space around it. *)
Definition stripped_of (seg c : string) : Prop :=
  (exists before after,
     blank before /\ blank after /\ seg = (before ++ c ++ after)%string)
  /\ ~ starts_with_space c
  /\ ~ ends_with_space c.

(** [s.split(sep)] for a one-character separator: always at least one
    segment. *)
Fixpoint split (sep : ascii) (s : string) : list string :=
  match s with
  | EmptyString => [EmptyString]
  | String c rest =>
      if Ascii.eqb c sep then EmptyString :: split sep rest
      else match split sep rest with
           | [] => [String c EmptyString]
           | seg :: segs => String c seg :: segs
           end
  end.

(** [sep.join(l)]. *)
Fixpoint join (sep : string) (l : list string) : string :=
  match l with
  | [] => EmptyString
  | [x] => x
  | x :: rest => x ++ sep ++ join sep rest
  end.

Definition str_truthy (s : string) : bool := negb (s =? "").

(** ** The collaborators *)

(** A strategy instance: its [select(trade_date, data)]. *)
Definition Selector : Type := Timestamp -> Data -> result Picks.

(** A class of the [Selector] module, called on the [params] of a
    configuration. *)
Definition Klass : Type := json -> result Selector.

(** The reference table as the report uses it: for a code, the row lookup
    and rendering raise, find no row, or give the parts of the line. *)
Definition EtfInfo : Type := string -> result (option (list string)).

Record World : Type := {
  path_exists : string -> bool;            (* [Path.exists()] *)
  joinpath : string -> string -> string;   (* [data_dir / name] *)
  path_name : string -> string;            (* [fp.name] *)
  glob_csv : string -> list string;        (* stems of [data_dir.glob("*.csv")] *)
  read_csv : string -> result DataFrame;   (* [pd.read_csv(fp, parse_dates=["date"])] *)
  sort_values : DataFrame -> DataFrame;    (* [df.sort_values("date")] *)
  to_datetime : string -> result Timestamp;
  json_load : string -> result json;       (* [open] and [json.load] *)
  read_etf_info : string -> result EtfInfo;
  import_Selector : result (string -> option Klass)
}.

(** The [args] namespace of [run_select_stock]. *)
Record Args : Type := {
  data_dir : string;
  config : string;
  date : option string;
  tickers : string;
  etf_info : option string
}.

(** Truthiness of an optional string argument: [None] and the empty string
    are false. *)
Definition opt_truthy (o : option string) : option string :=
  match o with
  | Some s => if str_truthy s then Some s else None
  | None => None
  end.

Section Pipeline.
Variable w : World.

(** *** [load_data] *)

Fixpoint load_frames (data_dir : string) (codes : list string)
    (frames : Data) : M Data :=
  match codes with
  | [] => ret frames
  | code :: rest =>
      let fp := joinpath w data_dir (code ++ ".csv") in
      if negb (path_exists w fp) then
        logger WARNING (MsgCsvMissing (path_name w fp)) ;;
        load_frames data_dir rest frames
      else
        df <- (emit (ReadCsv fp) ;; lift (read_csv w fp)) ;;
        load_frames data_dir rest
          (PyDict.set String.eqb code (sort_values w df) frames)
  end.

Definition load_data (data_dir : string) (codes : list string) : M Data :=
  load_frames data_dir codes [].

(** *** [load_config] *)

Definition isinstance_list (v : json) : bool :=
  match v with JArray _ => true | _ => false end.

Definition isinstance_dict (v : json) : bool :=
  match v with JObject _ => true | _ => false end.

(** ["selectors" in cfg_raw], used on a dict only. *)
Definition py_in (key : string) (v : json) : bool :=
  match v with JObject kv => has_key key kv | _ => false end.

(** [cfg_raw[key]] on a dict. *)
Definition py_getitem (v : json) (key : string) : result json :=
  match v with
  | JObject kv =>
      match lookup key kv with Some x => Ret x | None => Raise KeyError end
  | _ => Raise TypeError
  end.

Definition normalize (cfg_raw : json) : result json :=
  if isinstance_list cfg_raw then Ret cfg_raw
  else if isinstance_dict cfg_raw && py_in "selectors" cfg_raw then
    py_getitem cfg_raw "selectors"
  else Ret (JArray [cfg_raw]).

Definition load_config (cfg_path : string) : M json :=
  if negb (path_exists w cfg_path) then
    logger ERROR (MsgConfigMissing cfg_path) ;;
    raise (SystemExit 1)
  else
    cfg_raw <- lift (json_load w cfg_path) ;;
    cfgs <- lift (normalize cfg_raw) ;;
    if negb (truthy cfgs) then
      logger ERROR MsgNoSelector ;;
      raise (SystemExit 1)
    else ret cfgs.

(** *** [instantiate_selector] *)

Definition getattr (module : string -> option Klass) (name : json)
    : result Klass :=
  match name with
  | JString s =>
      match module s with Some cls => Ret cls | None => Raise AttributeError end
  | _ => Raise TypeError
  end.

(** [except (ModuleNotFoundError, AttributeError) as e:
     raise ImportError(...) from e]. *)
Definition except_import {A} (r : result A) : result A :=
  match r with
  | Raise ModuleNotFoundError | Raise AttributeError => Raise ImportError
  | _ => r
  end.

Definition load_class (cls_name : json) : result Klass :=
  except_import
    match import_Selector w with
    | Ret module => getattr module cls_name
    | Raise e => Raise e
    end.

Definition instantiate_selector (cfg : json) : M (json * Selector) :=
  cls_name <- lift (py_get cfg "class" JNull) ;;
  if negb (truthy cls_name) then raise ValueError
  else
    cls <- lift (load_class cls_name) ;;
    params <- lift (py_get cfg "params" (JObject [])) ;;
    alias <- lift (py_get cfg "alias" cls_name) ;;
    selector <- (emit (Construct cls_name params) ;; lift (cls params)) ;;
    ret (alias, selector).

(** *** The report of one strategy *)

Fixpoint detail (etf_info_df : EtfInfo) (picks : Picks)
    (detailed_picks : list string) : M (list string) :=
  match picks with
  | [] => ret detailed_picks
  | code :: rest =>
      row <- lift (etf_info_df code) ;;
      match row with
      | Some info_parts =>
          logger INFO (MsgDetailRow info_parts) ;;
          detail etf_info_df rest detailed_picks
      | None => detail etf_info_df rest (detailed_picks ++ [code])
      end
  end.

Definition report (etf_info_df : option EtfInfo) (alias : json)
    (trade_date : Timestamp) (picks : Picks) : M unit :=
  logger INFO MsgBlank ;;
  logger INFO (MsgResultHeader alias) ;;
  logger INFO (MsgTradeDate trade_date) ;;
  logger INFO (MsgCount (length picks)) ;;
  match picks, etf_info_df with
  | _ :: _, Some df =>
      detailed_picks <- detail df picks [] ;;
      logger INFO (MsgDetailMissing detailed_picks)
  | _, _ => logger INFO (MsgPicks picks)
  end.

(** *** The loop over the selector configurations *)

(** [results[alias] = picks]. *)
Definition setitem (alias : json) (picks : Picks) (results : Results)
    : result Results :=
  if hashable alias then Ret (PyDict.set key_eqb alias picks results)
  else Raise TypeError.

(** The [try] block around [instantiate_selector], with its handler:
    [None] stands for the handler's [continue]. *)
Definition try_instantiate (cfg : json) : M (option (json * Selector)) :=
  try_except
    (p <- instantiate_selector cfg ;; ret (Some p))
    (fun e => logger ERROR (MsgSkipConfig cfg e) ;; ret None).

(** One iteration of [for cfg in selector_cfgs]; the value is [results]
    after it. *)
Definition selector_step (trade_date : Timestamp) (data : Data)
    (etf_info_df : option EtfInfo) (results : Results) (cfg : json)
    : M Results :=
  activate <- lift (py_get cfg "activate" (JBool true)) ;;
  if is_False activate then ret results
  else
    inst <- try_instantiate cfg ;;
    match inst with
    | None => ret results
    | Some (alias, selector) =>
        picks <- (emit (Select alias trade_date) ;;
                  lift (selector trade_date data)) ;;
        results' <- lift (setitem alias picks results) ;;
        report etf_info_df alias trade_date picks ;;
        ret results'
    end.

Fixpoint run_selectors (trade_date : Timestamp) (data : Data)
    (etf_info_df : option EtfInfo) (cfgs : list json) (results : Results)
    : M Results :=
  match cfgs with
  | [] => ret results
  | cfg :: rest =>
      results' <- selector_step trade_date data etf_info_df results cfg ;;
      run_selectors trade_date data etf_info_df rest results'
  end.

(** *** [run_select_stock] *)

(** Lines 99 to 103: the universe of codes. *)
Definition resolve_codes (args : Args) : list string :=
  if lower (tickers args) =? "all" then glob_csv w (data_dir args)
  else map strip
         (filter (fun c => str_truthy (strip c)) (split "," (tickers args))).

(** Lines 113 to 119: the trade date.  With [args.date] set it is what
    [pd.to_datetime] returns; else it is the [max] of the columns, whose
    [date()] line 119 takes for the log. *)
Definition resolve_trade_date (args : Args) (data : Data) : M Timestamp :=
  match opt_truthy (date args) with
  | Some s => lift (to_datetime w s)
  | None =>
      trade_date <- lift (py_max (map (fun kv => date_max (snd kv)) data)) ;;
      match trade_date with
      | Nan => raise AttributeError   (* [trade_date.date()] on a float *)
      | Stamp t => logger INFO (MsgDefaultDate t) ;; ret t
      end
  end.

(** Lines 125 to 129: the reference table. *)
Definition load_etf_info (args : Args) (etf_info_df : option EtfInfo)
    : M (option EtfInfo) :=
  match etf_info_df, opt_truthy (etf_info args) with
  | None, Some path =>
      try_except
        (df <- lift (read_etf_info w path) ;; ret (Some df))
        (fun e => logger WARNING (MsgEtfInfoFailed e) ;; ret None)
  | _, _ => ret etf_info_df
  end.

(** The value is [None] for Python's [return None], [Some results] for
    [return results]. *)
Definition run_select_stock (args : Args) (etf_info_df : option EtfInfo)
    : M (option Results) :=
  if negb (path_exists w (data_dir args)) then
    logger ERROR (MsgDataDirMissing (data_dir args)) ;;
    ret None
  else
    match resolve_codes args with
    | [] => logger ERROR MsgEmptyPool ;; ret None
    | codes =>
        data <- load_data (data_dir args) codes ;;
        match data with
        | [] => logger ERROR MsgNoData ;; ret None
        | _ =>
            trade_date <- resolve_trade_date args data ;;
            selector_cfgs <- load_config (config args) ;;
            etf_info_df' <- load_etf_info args etf_info_df ;;
            cfgs <- lift (py_iter selector_cfgs) ;;
            results <- run_selectors trade_date data etf_info_df' cfgs [] ;;
            ret (Some results)
        end
    end.
(** Lines 94 to 119 of [run_select_stock]: [None] when the function has
    returned [None], else the loaded series and the trade date. *)
Definition market_data (args : Args) : M (option (Data * Timestamp)) :=
  if negb (path_exists w (data_dir args)) then
    logger ERROR (MsgDataDirMissing (data_dir args)) ;;
    ret None
  else
    match resolve_codes args with
    | [] => logger ERROR MsgEmptyPool ;; ret None
    | codes =>
        data <- load_data (data_dir args) codes ;;
        match data with
        | [] => logger ERROR MsgNoData ;; ret None
        | _ =>
            trade_date <- resolve_trade_date args data ;;
            ret (Some (data, trade_date))
        end
    end.

(** Lines 94 to 133, up to the head of the loop: what the loop works
    with. *)
Definition prologue (args : Args) (etf_info_df : option EtfInfo)
    : M (option (Timestamp * Data * option EtfInfo * list json)) :=
  m <- market_data args ;;
  match m with
  | None => ret None
  | Some (data, trade_date) =>
      selector_cfgs <- load_config (config args) ;;
      etf_info_df' <- load_etf_info args etf_info_df ;;
      cfgs <- lift (py_iter selector_cfgs) ;;
      ret (Some (trade_date, data, etf_info_df', cfgs))
  end.

(** Lines 132 to 182: the loop and the return. *)
Definition epilogue
    (p : option (Timestamp * Data * option EtfInfo * list json))
    : M (option Results) :=
  match p with
  | None => ret None
  | Some (trade_date, data, etf_info_df, cfgs) =>
      results <- run_selectors trade_date data etf_info_df cfgs [] ;;
      ret (Some results)
  end.

(** What a configuration contributes when it is active, its strategy is
    constructed and its [select] returns: the alias and the picks. *)
Definition executed (trade_date : Timestamp) (data : Data) (cfg : json)
    : option (json * Picks) :=
  match py_get cfg "activate" (JBool true) with
  | Ret activate =>
      if is_False activate then None
      else match snd (instantiate_selector cfg) with
           | Ret (alias, selector) =>
               match selector trade_date data with
               | Ret picks => Some (alias, picks)
               | Raise _ => None
               end
           | Raise _ => None
           end
  | Raise _ => None
  end.

End Pipeline.

(** The world [w] with [doc] as its configuration document. *)
Definition with_document (w : World) (doc : json) : World := {|
  path_exists := path_exists w;
  joinpath := joinpath w;
  path_name := path_name w;
  glob_csv := glob_csv w;
  read_csv := read_csv w;
  sort_values := sort_values w;
  to_datetime := to_datetime w;
  json_load := fun _ => Ret doc;
  read_etf_info := read_etf_info w;
  import_Selector := import_Selector w
|}.


(** The path of the history file of a code. *)
Definition csv_path (w : World) (data_dir code : string) : string :=
  joinpath w data_dir (code ++ ".csv").

(** What [load_data] emits for one requested code. *)
Definition load_event (w : World) (data_dir code : string) : event :=
  if path_exists w (csv_path w data_dir code)
  then ReadCsv (csv_path w data_dir code)
  else Log WARNING (MsgCsvMissing (path_name w (csv_path w data_dir code))).

(** The eight spellings of [all]. *)
Definition all_spellings : list string :=
  ["all"; "alL"; "aLl"; "aLL"; "All"; "AlL"; "ALl"; "ALL"].

Definition has_comma (s : string) : bool :=
  existsb (Ascii.eqb ",") (list_ascii_of_string s).

(** * The workflow of [main.py]

    [main.py] reads the project configuration, runs the fetch stage
    ([run_fetch_kline], a collaborator) and the screening stage
    ([run_select_stock] above), and turns their outcomes into the exit
    status of the process. *)

(** The [args] that [get_fetch_args] builds: values of the project
    configuration, of any JSON type. *)
Record FetchArgs : Type := {
  datasource : json;
  frequency : json;
  exclude_gem : json;
  min_mktcap : json;
  max_mktcap : json;
  start : json;
  end_ : json;
  out : json;
  workers : json
}.

(** The [args] that [get_select_args] builds.  [etf_info] is [None] or
    the string that [run_select] puts there. *)
Record SelectArgs : Type := {
  sa_data_dir : json;
  sa_config : json;
  sa_date : json;
  sa_tickers : json;
  sa_etf_info : option string
}.

(** The arguments of the types that [run_select_stock] is written for:
    strings, and a date that is a string or null. *)
Definition typed_args (a : SelectArgs) : option Args :=
  match sa_data_dir a, sa_config a, sa_tickers a with
  | JString d, JString c, JString t =>
      match sa_date a with
      | JNull => Some {| data_dir := d; config := c; date := None;
                         tickers := t; etf_info := sa_etf_info a |}
      | JString s => Some {| data_dir := d; config := c; date := Some s;
                             tickers := t; etf_info := sa_etf_info a |}
      | _ => None
      end
  | _, _, _ => None
  end.

(** The collaborators of [main.py].  [run_select_stock_untyped] stands
    for what [run_select_stock] does with arguments of other types than
    [typed_args] accepts, which depends on how pandas converts them. *)
Record Host : Type := {
  run_fetch_kline : FetchArgs -> result (option EtfInfo * string);
  to_csv : EtfInfo -> string -> result unit;
  path_parent : string -> string;          (* [Path(out_dir).parent] *)
  run_select_stock_untyped : SelectArgs -> option EtfInfo -> M (option Results)
}.

(** The log records of [main.py]. *)
Inductive main_message : Type :=
| MainConfigMissing (config_path : string)
| MainConfigUnreadable (e : exn)
| MainRule
| MainFetchStart
| MainFetchFailed
| MainEtfSaved (etf_info_path : string)
| MainFetchDone
| MainFetchError (e : exn)
| MainSelectStart
| MainSelectFailed
| MainSelectDone
| MainSelectError (e : exn)
| MainStart
| MainConfigFile (config_path : string)
| MainDone
| MainFlagsConflict
| MainWorkflowFailed
| MainInterrupted
| MainError (e : exn).

Inductive main_event : Type :=
| MainLog (lv : level) (m : main_message)
| Screening (ev : event)              (* an event of [run_select_stock] *)
| FetchKline (args : FetchArgs)       (* [run_fetch_kline(fetch_args)] *)
| ToCsv (etf_info_path : string).     (* [etf_info_df.to_csv(...)] *)

(** The two attributes of a [StockTradeWorkflow] that its methods
    assign. *)
Record Workflow : Type := {
  wf_etf_info_df : option EtfInfo;
  wf_etf_info_path : option string
}.

Definition new_workflow : Workflow :=
  {| wf_etf_info_df := None; wf_etf_info_path := None |}.

(** A method of the workflow: from the attributes before the call to the
    events, the result and the attributes after it.  Attributes assigned
    before an exception stay assigned. *)
Definition W (A : Type) : Type :=
  Workflow -> list main_event * result A * Workflow.

Definition wret {A} (a : A) : W A := fun s => ([], Ret a, s).
Definition wraise {A} (e : exn) : W A := fun s => ([], Raise e, s).
Definition wlift {A} (r : result A) : W A := fun s => ([], r, s).
Definition wemit (ev : main_event) : W unit := fun s => ([ev], Ret tt, s).
Definition wlog (lv : level) (m : main_message) : W unit :=
  wemit (MainLog lv m).
Definition wget : W Workflow := fun s => ([], Ret s, s).
Definition wput (s' : Workflow) : W unit := fun _ => ([], Ret tt, s').

(** A call into [select_stock.py]. *)
Definition screening {A} (m : M A) : W A :=
  fun s => (map Screening (fst m), snd m, s).

Definition wbind {A B} (m : W A) (f : A -> W B) : W B :=
  fun s =>
    match m s with
    | (l, Ret a, s') =>
        match f a s' with
        | (l', r, s'') => (l ++ l', r, s'')
        end
    | (l, Raise e, s') => (l, Raise e, s')
    end.

(** [try: m / except Exception as e: h e]. *)
Definition wtry {A} (m : W A) (h : exn -> W A) : W A :=
  fun s =>
    match m s with
    | (l, Raise e, s') =>
        if is_Exception e then
          match h e s' with
          | (l', r, s'') => (l ++ l', r, s'')
          end
        else (l, Raise e, s')
    | done => done
    end.

Declare Scope wf_scope.
Delimit Scope wf_scope with wf.
Notation "x <- m ;; k" := (wbind m (fun x => k))
  (at level 61, m at next level, right associativity) : wf_scope.
Notation "m ;; k" := (wbind m (fun _ => k))
  (at level 61, right associativity) : wf_scope.

(** [r] then [f], for the plain results of [dict.get]. *)
Definition and_then {A B} (r : result A) (f : A -> result B) : result B :=
  match r with
  | Ret a => f a
  | Raise e => Raise e
  end.

Module ConfigManager.

Definition _get_default_config : json :=
  JObject
    [("fetch", JObject
        [("datasource", JString "mootdx");
         ("frequency", JInt 4);
         ("exclude_gem", JBool false);
         ("min_mktcap", JInt 500000000);
         ("max_mktcap", JInt 100000000000000);
         ("start", JString "20250401");
         ("end", JString "today");
         ("out", JString "./data/ETF");
         ("workers", JInt 10)]);
     ("select", JObject
        [("data_dir", JString "./data/ETF");
         ("config", JString "./configs.json");
         ("date", JNull);
         ("tickers", JString "all")]);
     ("workflow", JObject
        [("auto_fetch", JBool true);
         ("auto_select", JBool true);
         ("save_etf_info", JBool true)])].

Definition _load_config (w : World) (config_path : string) : W json :=
  (if negb (path_exists w config_path) then
     wlog WARNING (MainConfigMissing config_path) ;;
     wret _get_default_config
   else
     wtry (wlift (json_load w config_path))
       (fun e => wlog ERROR (MainConfigUnreadable e) ;;
                 wret _get_default_config))%wf.

Definition get_fetch_args (config : json) : result FetchArgs :=
  and_then (py_get config "fetch" (JObject [])) (fun fetch_config =>
  and_then (py_get fetch_config "datasource" (JString "mootdx")) (fun a1 =>
  and_then (py_get fetch_config "frequency" (JInt 4)) (fun a2 =>
  and_then (py_get fetch_config "exclude_gem" (JBool true)) (fun a3 =>
  and_then (py_get fetch_config "min_mktcap" (JInt 500000000)) (fun a4 =>
  and_then (py_get fetch_config "max_mktcap" JNull) (fun a5 =>
  and_then (py_get fetch_config "start" (JString "20250401")) (fun a6 =>
  and_then (py_get fetch_config "end" (JString "today")) (fun a7 =>
  and_then (py_get fetch_config "out" (JString "./data/ETF")) (fun a8 =>
  and_then (py_get fetch_config "workers" (JInt 10)) (fun a9 =>
  Ret {| datasource := a1; frequency := a2; exclude_gem := a3;
         min_mktcap := a4; max_mktcap := a5; start := a6; end_ := a7;
         out := a8; workers := a9 |})))))))))).

Definition get_select_args (config : json) : result SelectArgs :=
  and_then (py_get config "select" (JObject [])) (fun select_config =>
  and_then (py_get select_config "data_dir" (JString "./data/ETF")) (fun a1 =>
  and_then (py_get select_config "config" (JString "./configs.json")) (fun a2 =>
  and_then (py_get select_config "date" JNull) (fun a3 =>
  and_then (py_get select_config "tickers" (JString "all")) (fun a4 =>
  Ret {| sa_data_dir := a1; sa_config := a2; sa_date := a3;
         sa_tickers := a4; sa_etf_info := None |}))))).

End ConfigManager.

Module StockTradeWorkflow.
Section Methods.
Variable w : World.
Variable h : Host.
Variable config_path : string.
Variable config : json.   (* [self.config_manager.config] *)

Local Open Scope wf_scope.

Definition run_fetch : W bool :=
  wlog INFO MainRule ;;
  wlog INFO MainFetchStart ;;
  wlog INFO MainRule ;;
  wtry
    (fetch_args <- wlift (ConfigManager.get_fetch_args config) ;;
     fetched <- (wemit (FetchKline fetch_args) ;;
                 wlift (run_fetch_kline h fetch_args)) ;;
     self <- wget ;;
     wput {| wf_etf_info_df := fst fetched;
             wf_etf_info_path := wf_etf_info_path self |} ;;
     match fst fetched with
     | None => wlog ERROR MainFetchFailed ;; wret false
     | Some etf_info_df =>
         workflow_config <- wlift (py_getitem config "workflow") ;;
         save <- wlift (py_get workflow_config "save_etf_info" (JBool true)) ;;
         (if truthy save then
            let etf_info_path :=
              joinpath w (path_parent h (snd fetched)) "etf_info.csv" in
            wput {| wf_etf_info_df := Some etf_info_df;
                    wf_etf_info_path := Some etf_info_path |} ;;
            (wemit (ToCsv etf_info_path) ;;
             wlift (to_csv h etf_info_df etf_info_path)) ;;
            wlog INFO (MainEtfSaved etf_info_path)
          else wret tt) ;;
         wlog INFO MainFetchDone ;;
         wret true
     end)
    (fun e => wlog ERROR (MainFetchError e) ;; wret false).

(** [run_select_stock(select_args, self.etf_info_df)]. *)
Definition call_run_select_stock (select_args : SelectArgs)
    (etf_info_df : option EtfInfo) : W (option Results) :=
  match typed_args select_args with
  | Some args => screening (run_select_stock w args etf_info_df)
  | None => screening (run_select_stock_untyped h select_args etf_info_df)
  end.

Definition run_select : W bool :=
  wlog INFO MainRule ;;
  wlog INFO MainSelectStart ;;
  wlog INFO MainRule ;;
  wtry
    (select_args <- wlift (ConfigManager.get_select_args config) ;;
     self <- wget ;;
     let select_args :=
       match wf_etf_info_path self with
       | Some etf_info_path =>
           if path_exists w etf_info_path then
             {| sa_data_dir := sa_data_dir select_args;
                sa_config := sa_config select_args;
                sa_date := sa_date select_args;
                sa_tickers := sa_tickers select_args;
                sa_etf_info := Some etf_info_path |}
           else select_args
       | None => select_args
       end in
     results <- call_run_select_stock select_args (wf_etf_info_df self) ;;
     match results with
     | None => wlog ERROR MainSelectFailed ;; wret false
     | Some _ => wlog INFO MainSelectDone ;; wret true
     end)
    (fun e => wlog ERROR (MainSelectError e) ;; wret false).

Definition run (fetch_only select_only : bool) : W bool :=
  wlog INFO MainStart ;;
  wlog INFO (MainConfigFile config_path) ;;
  workflow_config <- wlift (py_getitem config "workflow") ;;
  should <- (if fetch_only then wret (JBool true, JBool false)
             else if select_only then wret (JBool false, JBool true)
             else
               should_fetch <-
                 wlift (py_get workflow_config "auto_fetch" (JBool true)) ;;
               should_select <-
                 wlift (py_get workflow_config "auto_select" (JBool true)) ;;
               wret (should_fetch, should_select)) ;;
  fetched <- (if truthy (fst should) then run_fetch else wret true) ;;
  if negb fetched then wret false
  else
    selected <- (if truthy (snd should) then run_select else wret true) ;;
    if negb selected then wret false
    else
      wlog INFO MainRule ;;
      wlog INFO MainDone ;;
      wlog INFO MainRule ;;
      wret true.

End Methods.
End StockTradeWorkflow.

(** [main()] of [main.py], after [parse_args]: the events and how the
    call ends. *)
Definition main (w : World) (h : Host) (config : string)
    (fetch_only select_only : bool) : list main_event * result unit :=
  if fetch_only && select_only then
    ([MainLog ERROR MainFlagsConflict], Raise (SystemExit 1))
  else
    let body : W unit :=
      (config_manager <- ConfigManager._load_config w config ;;
       wput new_workflow ;;
       success <- StockTradeWorkflow.run w h config config_manager
                    fetch_only select_only ;;
       if negb success then
         wlog ERROR MainWorkflowFailed ;;
         wraise (SystemExit 1)
       else wret tt)%wf in
    match body new_workflow with
    | (l, Ret tt, _) => (l, Ret tt)
    | (l, Raise KeyboardInterrupt, _) =>
        (l ++ [MainLog INFO MainInterrupted], Raise (SystemExit 0))
    | (l, Raise e, _) =>
        if is_Exception e then
          (l ++ [MainLog ERROR (MainError e)], Raise (SystemExit 1))
        else (l, Raise e)
    end.

(** ** How a run of [main.py] ends *)

(** The end of [python main.py --select-only], from the outcome of
    [run_select_stock]: the records logged after the screening and the
    result of [main]. *)
Definition select_only_ending (r : result (option Results))
    : list main_event * result unit :=
  match r with
  | Ret (Some _) =>
      ([MainLog INFO MainSelectDone; MainLog INFO MainRule;
        MainLog INFO MainDone; MainLog INFO MainRule], Ret tt)
  | Ret None =>
      ([MainLog ERROR MainSelectFailed; MainLog ERROR MainWorkflowFailed],
       Raise (SystemExit 1))
  | Raise KeyboardInterrupt =>
      ([MainLog INFO MainInterrupted], Raise (SystemExit 0))
  | Raise (SystemExit code) => ([], Raise (SystemExit code))
  | Raise (OtherBaseException name) => ([], Raise (OtherBaseException name))
  | Raise e =>
      ([MainLog ERROR (MainSelectError e); MainLog ERROR MainWorkflowFailed],
       Raise (SystemExit 1))
  end.

(** The records that open a run and a stage. *)
Definition run_header (config_path : string) : list main_event :=
  [MainLog INFO MainStart; MainLog INFO (MainConfigFile config_path)].

Definition stage_header (m : main_message) : list main_event :=
  [MainLog INFO MainRule; MainLog INFO m; MainLog INFO MainRule].

(** ** Order of a loaded series *)

(** [a] is not after [b] in the order that [sort_values] sorts by. *)
Definition date_le (a b : bar) : Prop :=
  date_leb (bar_date a) (bar_date b) = true.

(** Every bar is not after any bar that follows it. *)
Definition ascending (df : DataFrame) : Prop := StronglySorted date_le df.

(** ** What the report says of a reference table *)

(** The lines logged for the picks that have a row in the table. *)
Definition detail_rows (df : EtfInfo) (picks : Picks) : list event :=
  flat_map (fun code => match df code with
                        | Ret (Some info_parts) =>
                            [Log INFO (MsgDetailRow info_parts)]
                        | _ => []
                        end) picks.

(** The picks that have no row in the table. *)
Definition without_row (df : EtfInfo) (picks : Picks) : list string :=
  filter (fun code => match df code with
                      | Ret None => true
                      | _ => false
                      end) picks.

(** The four records that head the report of a strategy. *)
Definition report_header (alias : json) (trade_date : Timestamp)
    (picks : Picks) : list event :=
  [Log INFO MsgBlank; Log INFO (MsgResultHeader alias);
   Log INFO (MsgTradeDate trade_date); Log INFO (MsgCount (length picks))].

(** A configuration that contributes nothing and does not stop the loop:
    an object that is deactivated, or whose strategy fails to be
    constructed with an exception of class [Exception]. *)
Definition passed_over (w : World) (cfg : json) : Prop :=
  exists kv,
    cfg = JObject kv
    /\ (lookup "activate" kv = Some (JBool false)
        \/ exists lI e, instantiate_selector w cfg = (lI, Raise e)
                        /\ is_Exception e = true).

(** ** A small concrete world

    Two history files, a [Selector] module of four classes, one date
    format.  The examples below run the pipeline in it. *)

Module Demo.

Definition slash (d n : string) : string := d ++ "/" ++ n.

Definition last_component (p : string) : string := last (split "/" p) "".

Definition mkbar (d : Z) : bar := {| bar_date := TS d; bar_rest := [] |}.


Definition frame_A : DataFrame := [mkbar 3; mkbar 1; mkbar 2].
Definition frame_B : DataFrame := [mkbar 5; mkbar 4].

(** [Good] selects A, [Other] selects B, [Boom] constructs and raises in
    [select], [BadInit] raises in its constructor. *)
Definition selector_module (cls_name : string) : option Klass :=
  if cls_name =? "Good" then Some (fun _ => Ret (fun _ _ => Ret ["A"]))
  else if cls_name =? "Other" then Some (fun _ => Ret (fun _ _ => Ret ["B"]))
  else if cls_name =? "Boom" then
    Some (fun _ => Ret (fun _ _ => Raise (OtherException "RuntimeError")))
  else if cls_name =? "BadInit" then Some (fun _ => Raise TypeError)
  else None.

(** The world with the paths [files] and the configuration document
    [doc] at every readable configuration path. *)
Definition world (files : list string) (doc : json) : World := {|
  path_exists := fun p => existsb (String.eqb p) files;
  joinpath := slash;
  path_name := last_component;
  glob_csv := fun _ => ["A"; "B"];
  read_csv := fun p =>
    if p =? "data/A.csv" then Ret frame_A
    else if p =? "data/B.csv" then Ret frame_B
    else Raise OSError;
  sort_values := sort_by_date;
  to_datetime := fun s =>
    if s =? "2024-01-02" then Ret (TS 20240102) else Raise ValueError;
  json_load := fun _ => Ret doc;
  read_etf_info := fun _ => Raise OSError;
  import_Selector := Ret selector_module
|}.

Definition all_files : list string :=
  ["data"; "data/A.csv"; "data/B.csv"; "configs.json"].

Definition args (tickers : string) (date : option string) : Args := {|
  data_dir := "data";
  config := "configs.json";
  date := date;
  tickers := tickers;
  etf_info := None
|}.

Definition spec (cls alias : string) : json :=
  JObject [("class", JString cls); ("alias", JString alias)].

Definition deactivated (cls alias : string) : json :=
  JObject [("class", JString cls); ("alias", JString alias);
           ("activate", JBool false)].

(** A host whose fetch stage answers [fetched]. *)
Definition host (fetched : result (option EtfInfo * string)) : Host := {|
  run_fetch_kline := fun _ => fetched;
  to_csv := fun _ _ => Ret tt;
  path_parent := fun _ => "data";
  run_select_stock_untyped := fun _ _ => ([], Raise TypeError)
|}.

(** A project configuration for the small world. *)
Definition project (workflow : list (string * json)) : json :=
  JObject [("select", JObject [("data_dir", JString "data");
                               ("config", JString "configs.json");
                               ("tickers", JString "A")]);
           ("workflow", JObject workflow)].

(** The small world with a project configuration file beside the
    configuration of the selectors. *)
Definition project_world (files : list string) (project_doc doc : json)
    : World := {|
  path_exists := path_exists (world files doc);
  joinpath := slash;
  path_name := last_component;
  glob_csv := glob_csv (world files doc);
  read_csv := read_csv (world files doc);
  sort_values := sort_by_date;
  to_datetime := to_datetime (world files doc);
  json_load := fun p =>
    if p =? "project_config.json" then Ret project_doc else Ret doc;
  read_etf_info := fun _ => Raise OSError;
  import_Selector := Ret selector_module
|}.

End Demo.

(** ** The monad laws used below *)

Section MonadLaws.
Context {A B C : Type}.

Lemma bind_ret_l (a : A) (f : A -> M B) : bind (ret a) f = f a.
Proof. unfold bind, ret; simpl. now destruct (f a). Qed.

Lemma bind_raise_l (e : exn) (f : A -> M B) : bind (raise e) f = raise e.
Proof. reflexivity. Qed.

Lemma bind_assoc (m : M A) (f : A -> M B) (g : B -> M C) :
  bind (bind m f) g = bind m (fun a => bind (f a) g).
Proof.
  destruct m as [l [a|e]]; unfold bind; simpl; [|reflexivity].
  destruct (f a) as [l' [b|e']]; simpl; [|reflexivity].
  destruct (g b) as [l'' r]; simpl. now rewrite app_assoc.
Qed.

Lemma bind_ext (m : M A) (f g : A -> M B) :
  (forall a, f a = g a) -> bind m f = bind m g.
Proof.
  intros H. destruct m as [l [a|e]]; unfold bind; simpl; [|reflexivity].
  now rewrite H.
Qed.

Lemma bind_Ret (l : list event) (a : A) (f : A -> M B) :
  bind (l, Ret a) f = (l ++ fst (f a), snd (f a)).
Proof. reflexivity. Qed.

Lemma bind_Raise (l : list event) (e : exn) (f : A -> M B) :
  bind (l, Raise e) f = (l, Raise e).
Proof. reflexivity. Qed.
End MonadLaws.

Section PipelineFacts.
Variable w : World.

Lemma run_select_stock_eq (args : Args) (etf_info_df : option EtfInfo) :
  run_select_stock w args etf_info_df
  = bind (prologue w args etf_info_df) (epilogue w).
Proof.
  unfold run_select_stock, prologue, market_data.
  destruct (negb (path_exists w (data_dir args))).
  { now rewrite !bind_assoc, !bind_ret_l. }
  destruct (resolve_codes w args) as [|c cs].
  { now rewrite !bind_assoc, !bind_ret_l. }
  rewrite !bind_assoc. apply bind_ext. intros [|d ds].
  { now rewrite !bind_assoc, !bind_ret_l. }
  rewrite !bind_assoc. apply bind_ext. intros td.
  rewrite bind_ret_l, !bind_assoc. apply bind_ext. intros sc.
  rewrite bind_assoc. apply bind_ext. intros etf.
  rewrite bind_assoc. apply bind_ext. intros cfgs.
  now rewrite bind_ret_l.
Qed.

(** Once the loop is reached, the entry point returns what the loop
    returns, after the events of the prologue. *)
Lemma run_select_stock_loop (args : Args) (etf_info_df etf' : option EtfInfo)
    (l : list event) (td : Timestamp) (data : Data) (cfgs : list json) :
  prologue w args etf_info_df = (l, Ret (Some (td, data, etf', cfgs))) ->
  run_select_stock w args etf_info_df
  = (l ++ fst (run_selectors w td data etf' cfgs []),
     match snd (run_selectors w td data etf' cfgs []) with
     | Ret results => Ret (Some results)
     | Raise e => Raise e
     end).
Proof.
  intros H. rewrite run_select_stock_eq, H. unfold bind; simpl.
  destruct (run_selectors w td data etf' cfgs []) as [l' [r|e]]; simpl.
  - now rewrite app_nil_r.
  - reflexivity.
Qed.

Lemma run_selectors_app (td : Timestamp) (data : Data)
    (etf : option EtfInfo) (pre post : list json) (results : Results) :
  run_selectors w td data etf (pre ++ post) results
  = bind (run_selectors w td data etf pre results)
      (fun r => run_selectors w td data etf post r).
Proof.
  revert results. induction pre as [|cfg pre IH]; intros results; simpl.
  - now rewrite bind_ret_l.
  - rewrite bind_assoc. apply bind_ext. intros r. apply IH.
Qed.
(** *** One iteration of the loop *)

Lemma try_instantiate_Ret (cfg : json) (l : list event) (p : json * Selector) :
  instantiate_selector w cfg = (l, Ret p) ->
  try_instantiate w cfg = (l, Ret (Some p)).
Proof.
  intros H. unfold try_instantiate, try_except. rewrite H, bind_Ret; simpl.
  now rewrite app_nil_r.
Qed.

(** A construction failure of class [Exception] is logged and turned
    into the handler's [continue]. *)
Lemma try_instantiate_caught (cfg : json) (l : list event) (e : exn) :
  instantiate_selector w cfg = (l, Raise e) ->
  is_Exception e = true ->
  try_instantiate w cfg = (l ++ [Log ERROR (MsgSkipConfig cfg e)], Ret None).
Proof.
  intros H He. unfold try_instantiate, try_except. rewrite H, bind_Raise; simpl.
  now rewrite He.
Qed.

Lemma selector_step_active (td : Timestamp) (data : Data)
    (etf : option EtfInfo) (r : Results) (cfg v : json) :
  py_get cfg "activate" (JBool true) = Ret v ->
  is_False v = false ->
  selector_step w td data etf r cfg
  = bind (try_instantiate w cfg) (fun inst =>
      match inst with
      | None => ret r
      | Some (alias, selector) =>
          picks <- (emit (Select alias td) ;; lift (selector td data)) ;;
          results' <- lift (setitem alias picks r) ;;
          report etf alias td picks ;;
          ret results'
      end).
Proof.
  intros Hv Hf. unfold selector_step. rewrite Hv.
  change (lift (Ret v)) with (ret v). now rewrite bind_ret_l, Hf.
Qed.

Lemma selector_step_skipped (td : Timestamp) (data : Data)
    (etf : option EtfInfo) (r : Results) (cfg : json) :
  py_get cfg "activate" (JBool true) = Ret (JBool false) ->
  selector_step w td data etf r cfg = ([], Ret r).
Proof. intros Hv. unfold selector_step. now rewrite Hv. Qed.

Lemma selector_step_select_raises (td : Timestamp) (data : Data)
    (etf : option EtfInfo) (r : Results) (cfg v alias : json)
    (sel : Selector) (lI : list event) (e : exn) :
  py_get cfg "activate" (JBool true) = Ret v ->
  is_False v = false ->
  instantiate_selector w cfg = (lI, Ret (alias, sel)) ->
  sel td data = Raise e ->
  selector_step w td data etf r cfg = (lI ++ [Select alias td], Raise e).
Proof.
  intros Hv Hf Hi Hs.
  rewrite (selector_step_active _ _ _ _ _ _ Hv Hf).
  rewrite (try_instantiate_Ret _ _ _ Hi), bind_Ret. simpl.
  now rewrite Hs.
Qed.

(** A construction failure is skipped: the results are unchanged and the
    loop goes on. *)
Lemma selector_step_construction_fails (td : Timestamp) (data : Data)
    (etf : option EtfInfo) (r : Results) (cfg v : json)
    (lI : list event) (e : exn) :
  py_get cfg "activate" (JBool true) = Ret v ->
  is_False v = false ->
  instantiate_selector w cfg = (lI, Raise e) ->
  is_Exception e = true ->
  selector_step w td data etf r cfg
  = (lI ++ [Log ERROR (MsgSkipConfig cfg e)], Ret r).
Proof.
  intros Hv Hf Hi He.
  rewrite (selector_step_active _ _ _ _ _ _ Hv Hf).
  rewrite (try_instantiate_caught _ _ _ Hi He), bind_Ret. simpl.
  now rewrite app_nil_r.
Qed.
(** No series loaded: the error is logged and [None] returned. *)
Lemma run_select_stock_no_data (args : Args) (etf : option EtfInfo)
    (l : list event) :
  path_exists w (data_dir args) = true ->
  load_data w (data_dir args) (resolve_codes w args) = (l, Ret []) ->
  run_select_stock w args etf
  = (l ++ [Log ERROR (match resolve_codes w args with
                      | [] => MsgEmptyPool
                      | _ => MsgNoData
                      end)], Ret None).
Proof.
  intros Hd Hl. rewrite run_select_stock_eq. unfold prologue, market_data.
  rewrite Hd. simpl negb. cbv iota.
  destruct (resolve_codes w args) as [|c cs].
  - unfold load_data in Hl. simpl in Hl. injection Hl as <-. reflexivity.
  - rewrite Hl. unfold bind; simpl. now rewrite !app_nil_r.
Qed.
End PipelineFacts.

(** ** Fault isolation covers construction only *)

Section Isolation.
Variable w : World.

(** C1, as amended.  For an active configuration reached by the loop:
    when its strategy is constructed and [select] raises, nothing catches
    the exception: the loop stops there and the exception leaves
    [run_select_stock], after the events of the prologue, of the
    configurations before it and of the construction and the call; the
    configurations after it are not looked at and no mapping is returned.
    When instead the construction fails with an exception of class
    [Exception], the failure is logged, the results are left as they were
    and the loop goes on with the configurations after it. *)
Theorem select_exception_propagates (args : Args) (etf etf' : option EtfInfo)
    (l l1 : list event) (td : Timestamp) (data : Data)
    (pre post : list json) (cfg v : json) (r1 : Results) :
  prologue w args etf = (l, Ret (Some (td, data, etf', pre ++ cfg :: post))) ->
  run_selectors w td data etf' pre [] = (l1, Ret r1) ->
  py_get cfg "activate" (JBool true) = Ret v ->
  is_False v = false ->
  (forall lI alias sel e,
     instantiate_selector w cfg = (lI, Ret (alias, sel)) ->
     sel td data = Raise e ->
     run_select_stock w args etf
     = (l ++ l1 ++ lI ++ [Select alias td], Raise e))
  /\ (forall lI e,
        instantiate_selector w cfg = (lI, Raise e) ->
        is_Exception e = true ->
        run_selectors w td data etf' (pre ++ cfg :: post) []
        = (l1 ++ (lI ++ [Log ERROR (MsgSkipConfig cfg e)])
              ++ fst (run_selectors w td data etf' post r1),
           snd (run_selectors w td data etf' post r1))).
Proof.
  intros Hp Hpre Hv Hf. split.
  - intros lI alias sel e Hi Hs.
    rewrite (run_select_stock_loop _ _ _ _ _ _ _ _ Hp).
    rewrite run_selectors_app, Hpre, bind_Ret. simpl run_selectors.
    rewrite (selector_step_select_raises w td data etf' r1 _ _ _ _ _ _ Hv Hf Hi Hs).
    rewrite bind_Raise. reflexivity.
  - intros lI e Hi He.
    rewrite run_selectors_app, Hpre, bind_Ret. simpl run_selectors.
    rewrite (selector_step_construction_fails w td data etf' r1 _ _ _ _ Hv Hf Hi He).
    rewrite bind_Ret. reflexivity.
Qed.
End Isolation.

(** The amended C1 in the small world.  [Good] has run, [Boom] raises in
    [select], and the second [Good] is never constructed; with [BadInit]
    in the place of [Boom] the loop goes on. *)
Lemma select_exception_propagates_witness :
  run_select_stock
    (Demo.world Demo.all_files
       (JArray [Demo.spec "Good" "g"; Demo.spec "Boom" "b"; Demo.spec "Good" "h"]))
    (Demo.args "A" (Some "2024-01-02")) None
  = ([ReadCsv "data/A.csv"]
     ++ [Construct (JString "Good") (JObject []);
         Select (JString "g") (TS 20240102);
         Log INFO MsgBlank; Log INFO (MsgResultHeader (JString "g"));
         Log INFO (MsgTradeDate (TS 20240102)); Log INFO (MsgCount 1);
         Log INFO (MsgPicks ["A"])]
     ++ [Construct (JString "Boom") (JObject [])]
     ++ [Select (JString "b") (TS 20240102)],
     Raise (OtherException "RuntimeError"))
  /\ snd (run_selectors
            (Demo.world Demo.all_files
               (JArray [Demo.spec "Good" "g"; Demo.spec "BadInit" "b";
                        Demo.spec "Other" "h"]))
            (TS 20240102) [("A", sort_by_date Demo.frame_A)] None
            ([Demo.spec "Good" "g"] ++ Demo.spec "BadInit" "b"
               :: [Demo.spec "Other" "h"]) [])
     = Ret [(JString "g", ["A"]); (JString "h", ["B"])].
Proof.
  split.
  - apply (proj1 (select_exception_propagates
                    (Demo.world Demo.all_files
                       (JArray [Demo.spec "Good" "g"; Demo.spec "Boom" "b";
                                Demo.spec "Good" "h"]))
                    (Demo.args "A" (Some "2024-01-02")) None None
                    [ReadCsv "data/A.csv"] _ (TS 20240102)
                    [("A", sort_by_date Demo.frame_A)]
                    [Demo.spec "Good" "g"] [Demo.spec "Good" "h"]
                    (Demo.spec "Boom" "b") (JBool true)
                    [(JString "g", ["A"])]
                    eq_refl eq_refl eq_refl eq_refl)
             _ _ (fun _ _ => Raise (OtherException "RuntimeError")));
      reflexivity.
  - rewrite (proj2 (select_exception_propagates
                      (Demo.world Demo.all_files
                         (JArray [Demo.spec "Good" "g"; Demo.spec "BadInit" "b";
                                  Demo.spec "Other" "h"]))
                      (Demo.args "A" (Some "2024-01-02")) None None
                      [ReadCsv "data/A.csv"] _ (TS 20240102)
                      [("A", sort_by_date Demo.frame_A)]
                      [Demo.spec "Good" "g"] [Demo.spec "Other" "h"]
                      (Demo.spec "BadInit" "b") (JBool true)
                      [(JString "g", ["A"])]
                      eq_refl eq_refl eq_refl eq_refl)
               [Construct (JString "BadInit") (JObject [])] TypeError
               eq_refl eq_refl).
    reflexivity.
Defined.

(** C1, as the specification states it, fails: [Boom] is constructed, its
    [select] raises an exception of class [Exception], and the run ends
    with that exception instead of the mapping of [Good]. *)
Lemma select_exception_not_isolated :
  let w := Demo.world Demo.all_files
             (JArray [Demo.spec "Boom" "b"; Demo.spec "Good" "g"]) in
  let args := Demo.args "all" None in
  snd (instantiate_selector w (Demo.spec "Boom" "b"))
    = Ret (JString "b", fun _ _ => Raise (OtherException "RuntimeError"))
  /\ is_Exception (OtherException "RuntimeError") = true
  /\ run_select_stock w args None
     = ([ReadCsv "data/A.csv"; ReadCsv "data/B.csv";
         Log INFO (MsgDefaultDate (TS 5));
         Construct (JString "Boom") (JObject []);
         Select (JString "b") (TS 5)],
        Raise (OtherException "RuntimeError"))
  /\ (forall results, snd (run_select_stock w args None) <> Ret (Some results)).
Proof.
  repeat split; try reflexivity. intros results H. vm_compute in H. discriminate H.
Qed.

(** ** Fatal conditions *)

Section Fatal.
Variable w : World.

Lemma prologue_config (args : Args) (etf : option EtfInfo)
    (l : list event) (data : Data) (td : Timestamp) :
  market_data w args = (l, Ret (Some (data, td))) ->
  prologue w args etf
  = bind (l, Ret tt) (fun _ =>
      selector_cfgs <- load_config w (config args) ;;
      etf' <- load_etf_info w args etf ;;
      cfgs <- lift (py_iter selector_cfgs) ;;
      ret (Some (td, data, etf', cfgs))).
Proof. intros H. unfold prologue. now rewrite H, !bind_Ret. Qed.

(** C2, as amended.  A missing data directory and an empty set of loaded
    series (no code requested, or no requested file present) make
    [run_select_stock] log an error and return [None].  A missing
    configuration file and an empty normalized list make [load_config]
    log an error and call [sys.exit(1)]: [SystemExit] leaves
    [run_select_stock]. *)
Theorem fatal_conditions (args : Args) (etf : option EtfInfo) :
  (path_exists w (data_dir args) = false ->
   run_select_stock w args etf
   = ([Log ERROR (MsgDataDirMissing (data_dir args))], Ret None))
  /\ (forall l,
       path_exists w (data_dir args) = true ->
       load_data w (data_dir args) (resolve_codes w args) = (l, Ret []) ->
       run_select_stock w args etf
       = (l ++ [Log ERROR (match resolve_codes w args with
                           | [] => MsgEmptyPool
                           | _ => MsgNoData
                           end)], Ret None))
  /\ (forall l data td,
       market_data w args = (l, Ret (Some (data, td))) ->
       path_exists w (config args) = false ->
       run_select_stock w args etf
       = (l ++ [Log ERROR (MsgConfigMissing (config args))],
          Raise (SystemExit 1)))
  /\ (forall l data td cfg_raw cfgs,
       market_data w args = (l, Ret (Some (data, td))) ->
       path_exists w (config args) = true ->
       json_load w (config args) = Ret cfg_raw ->
       normalize cfg_raw = Ret cfgs ->
       truthy cfgs = false ->
       run_select_stock w args etf
       = (l ++ [Log ERROR MsgNoSelector], Raise (SystemExit 1))).
Proof.
  repeat split.
  - intros H. rewrite run_select_stock_eq. unfold prologue, market_data.
    now rewrite H.
  - intros l Hd Hl. now apply run_select_stock_no_data.
  - intros l data td Hm Hc. rewrite run_select_stock_eq.
    rewrite (prologue_config _ _ _ _ _ Hm). unfold load_config.
    rewrite Hc. unfold bind; simpl. reflexivity.
  - intros l data td cfg_raw cfgs Hm Hc Hj Hn Ht. rewrite run_select_stock_eq.
    rewrite (prologue_config _ _ _ _ _ Hm). unfold load_config.
    rewrite Hc, Hj. unfold bind; simpl. rewrite Hn; simpl. rewrite Ht; simpl.
    reflexivity.
Qed.
End Fatal.

(** The four fatal conditions in the small world: no data directory, no
    file for the requested code, no configuration file, an empty array as
    the configuration. *)
Lemma fatal_conditions_witness :
  run_select_stock (Demo.world [] JNull) (Demo.args "all" None) None
  = ([Log ERROR (MsgDataDirMissing "data")], Ret None)
  /\ run_select_stock (Demo.world ["data"] JNull) (Demo.args "A,B" None) None
     = ([Log WARNING (MsgCsvMissing "A.csv");
         Log WARNING (MsgCsvMissing "B.csv")]
        ++ [Log ERROR MsgNoData], Ret None)
  /\ run_select_stock (Demo.world ["data"; "data/A.csv"] JNull)
       (Demo.args "A" None) None
     = ([ReadCsv "data/A.csv"; Log INFO (MsgDefaultDate (TS 3))]
        ++ [Log ERROR (MsgConfigMissing "configs.json")],
        Raise (SystemExit 1))
  /\ run_select_stock (Demo.world Demo.all_files (JArray []))
       (Demo.args "A" None) None
     = ([ReadCsv "data/A.csv"; Log INFO (MsgDefaultDate (TS 3))]
        ++ [Log ERROR MsgNoSelector],
        Raise (SystemExit 1)).
Proof.
  split; [|split; [|split]].
  - apply (proj1 (fatal_conditions (Demo.world [] JNull)
                    (Demo.args "all" None) None)).
    reflexivity.
  - apply (proj1 (proj2 (fatal_conditions (Demo.world ["data"] JNull)
                           (Demo.args "A,B" None) None))); reflexivity.
  - apply (proj1 (proj2 (proj2 (fatal_conditions
                                  (Demo.world ["data"; "data/A.csv"] JNull)
                                  (Demo.args "A" None) None)))
             _ [("A", sort_by_date Demo.frame_A)] (TS 3)); reflexivity.
  - apply (proj2 (proj2 (proj2 (fatal_conditions
                                  (Demo.world Demo.all_files (JArray []))
                                  (Demo.args "A" None) None)))
             _ [("A", sort_by_date Demo.frame_A)] (TS 3) (JArray []) (JArray []));
      reflexivity.
Defined.

(** C2, as the specification states it, fails for the configuration: with
    the data loaded and no configuration file the run does not return a
    value, it ends in [SystemExit], which [except Exception] does not
    catch. *)
Lemma config_missing_exits :
  let w := Demo.world ["data"; "data/A.csv"] JNull in
  path_exists w "configs.json" = false
  /\ run_select_stock w (Demo.args "A" None) None
     = ([ReadCsv "data/A.csv"; Log INFO (MsgDefaultDate (TS 3));
         Log ERROR (MsgConfigMissing "configs.json")],
        Raise (SystemExit 1))
  /\ is_Exception (SystemExit 1) = false
  /\ snd (run_select_stock w (Demo.args "A" None) None) <> Ret None.
Proof.
  repeat split; try reflexivity. intros H. vm_compute in H. discriminate H.
Qed.

(** ** Deactivated configurations *)

Section Deactivation.
Variable w : World.

Lemma run_selectors_drop_skipped (td : Timestamp) (data : Data)
    (etf : option EtfInfo) (pre post : list json) (cfg : json) (r : Results) :
  py_get cfg "activate" (JBool true) = Ret (JBool false) ->
  run_selectors w td data etf (pre ++ cfg :: post) r
  = run_selectors w td data etf (pre ++ post) r.
Proof.
  intros H. rewrite !run_selectors_app. apply bind_ext. intros r'. simpl.
  rewrite (selector_step_skipped w td data etf r' cfg H).
  apply (bind_ret_l r').
Qed.

(** C3, as amended.  A configuration whose [activate] entry is the JSON
    [false] is skipped entirely: its iteration emits no event (no
    construction, no [select], no log record) and leaves the results as
    they are, so the whole run is the run of the list without it. *)
Theorem deactivated_spec_skipped (args : Args) (etf etf' : option EtfInfo)
    (l : list event) (td : Timestamp) (data : Data)
    (pre post : list json) (kv : list (string * json)) :
  prologue w args etf
  = (l, Ret (Some (td, data, etf', pre ++ JObject kv :: post))) ->
  lookup "activate" kv = Some (JBool false) ->
  (forall r, selector_step w td data etf' r (JObject kv) = ([], Ret r))
  /\ run_select_stock w args etf
     = (l ++ fst (run_selectors w td data etf' (pre ++ post) []),
        match snd (run_selectors w td data etf' (pre ++ post) []) with
        | Ret results => Ret (Some results)
        | Raise e => Raise e
        end).
Proof.
  intros Hp Hk.
  assert (Hg : py_get (JObject kv) "activate" (JBool true) = Ret (JBool false))
    by (simpl; now rewrite Hk).
  split.
  - intros r. now apply selector_step_skipped.
  - rewrite (run_select_stock_loop _ _ _ _ _ _ _ _ Hp).
    now rewrite (run_selectors_drop_skipped _ _ _ _ _ _ _ Hg).
Qed.
End Deactivation.

(** The amended C3 in the small world: the deactivated [Boom] between two
    active configurations leaves no trace. *)
Lemma deactivated_spec_skipped_witness :
  let w := Demo.world Demo.all_files
             (JArray [Demo.spec "Good" "g"; Demo.deactivated "Boom" "b";
                      Demo.spec "Other" "o"]) in
  (forall r,
     selector_step w (TS 20240102) [("A", sort_by_date Demo.frame_A)] None r
       (Demo.deactivated "Boom" "b") = ([], Ret r))
  /\ snd (run_select_stock w (Demo.args "A" (Some "2024-01-02")) None)
     = Ret (Some [(JString "g", ["A"]); (JString "o", ["B"])]).
Proof.
  intros w0.
  destruct (deactivated_spec_skipped w0 (Demo.args "A" (Some "2024-01-02"))
              None None [ReadCsv "data/A.csv"] (TS 20240102)
              [("A", sort_by_date Demo.frame_A)]
              [Demo.spec "Good" "g"] [Demo.spec "Other" "o"]
              [("class", JString "Boom"); ("alias", JString "b");
               ("activate", JBool false)]
              eq_refl eq_refl) as [Hstep Hrun].
  split.
  - exact Hstep.
  - rewrite Hrun. reflexivity.
Defined.

(** C3, as the specification states it, fails: the loop reads the key
    [activate], so a configuration with [active] set to [false] is
    constructed, its [select] is called, and its picks are in the
    result. *)
Lemma active_false_still_runs :
  run_select_stock
    (Demo.world Demo.all_files
       (JArray [JObject [("class", JString "Good"); ("alias", JString "g");
                         ("active", JBool false)]]))
    (Demo.args "A" (Some "2024-01-02")) None
  = ([ReadCsv "data/A.csv";
      Construct (JString "Good") (JObject []);
      Select (JString "g") (TS 20240102);
      Log INFO MsgBlank; Log INFO (MsgResultHeader (JString "g"));
      Log INFO (MsgTradeDate (TS 20240102)); Log INFO (MsgCount 1);
      Log INFO (MsgPicks ["A"])],
     Ret (Some [(JString "g", ["A"])])).
Proof. reflexivity. Qed.

(** ** The trade date *)







Section TradeDate.
Variable w : World.

(** The date handed to every [select] is the date resolved here: when
    the loop is reached, its trade date is the value of
    [resolve_trade_date] on the loaded series. *)
Lemma prologue_trade_date (args : Args) (etf etf' : option EtfInfo)
    (l : list event) (td : Timestamp) (data : Data) (cfgs : list json) :
  prologue w args etf = (l, Ret (Some (td, data, etf', cfgs))) ->
  exists l', resolve_trade_date w args data = (l', Ret td).
Proof.
  unfold prologue, market_data.
  destruct (negb (path_exists w (data_dir args))); [discriminate|].
  destruct (resolve_codes w args) as [|c cs]; [discriminate|].
  destruct (load_data w (data_dir args) (c :: cs)) as [l1 [d|e]];
    [|discriminate].
  rewrite bind_Ret. destruct d as [|kv d]; [discriminate|].
  destruct (resolve_trade_date w args (kv :: d)) as [l2 [t|e]] eqn:Ht;
    [|discriminate].
  rewrite !bind_Ret. cbn [fst snd ret].
  destruct (load_config w (config args)) as [l3 [sc|e]]; [|discriminate].
  rewrite bind_Ret. cbn [fst snd].
  destruct (load_etf_info w args etf) as [l4 [ei|e]]; [|discriminate].
  rewrite bind_Ret. cbn [fst snd].
  destruct (py_iter sc) as [cs'|e]; [|discriminate].
  unfold lift, bind; cbn [fst snd ret].
  intros H. injection H as _ <- <- _ _. eauto.
Qed.

End TradeDate.



(** ** The three shapes of the configuration document *)

Lemma normalize_array (specs : list json) :
  normalize (JArray specs) = Ret (JArray specs).
Proof. reflexivity. Qed.

Lemma normalize_selectors (doc : list (string * json)) (v : json) :
  lookup "selectors" doc = Some v ->
  normalize (JObject doc) = Ret v.
Proof. intros H. unfold normalize, py_in, has_key; simpl. now rewrite H. Qed.

Lemma normalize_single (kv : list (string * json)) :
  has_key "selectors" kv = false ->
  normalize (JObject kv) = Ret (JArray [JObject kv]).
Proof. intros H. unfold normalize, py_in; simpl. now rewrite H. Qed.

Lemma load_config_with_document (w : World) (cfg_path : string)
    (doc1 doc2 : json) :
  normalize doc1 = normalize doc2 ->
  load_config (with_document w doc1) cfg_path
  = load_config (with_document w doc2) cfg_path.
Proof.
  intros H. unfold load_config; simpl.
  destruct (path_exists w cfg_path); simpl; [|reflexivity].
  change (lift (Ret doc1)) with (ret doc1).
  change (lift (Ret doc2)) with (ret doc2).
  now rewrite !bind_ret_l, H.
Qed.

(** C5.  A list of specifications is loaded to the same list from the
    array of them and from any object that holds the array under
    [selectors]; when the list is one specification object (an object
    without the key [selectors]), the object alone loads to that list
    too.  A non-empty list is loaded as it is. *)
Theorem config_shapes_agree (w : World) (cfg_path : string)
    (specs : list json) :
  (forall doc,
     lookup "selectors" doc = Some (JArray specs) ->
     load_config (with_document w (JObject doc)) cfg_path
     = load_config (with_document w (JArray specs)) cfg_path)
  /\ (forall kv,
       specs = [JObject kv] ->
       has_key "selectors" kv = false ->
       load_config (with_document w (JObject kv)) cfg_path
       = load_config (with_document w (JArray specs)) cfg_path)
  /\ (path_exists w cfg_path = true ->
      specs <> [] ->
      load_config (with_document w (JArray specs)) cfg_path
      = ([], Ret (JArray specs))).
Proof.
  split; [|split].
  - intros doc H. apply load_config_with_document.
    now rewrite (normalize_selectors doc _ H).
  - intros kv -> H. apply load_config_with_document.
    now rewrite (normalize_single kv H).
  - intros Hp Hne. unfold load_config; simpl. rewrite Hp; simpl.
    destruct specs; [congruence|reflexivity].
Qed.

(** C5 in the small world: one specification, in its three shapes. *)
Lemma config_shapes_agree_witness :
  let w := Demo.world Demo.all_files JNull in
  let kv := [("class", JString "Good"); ("alias", JString "g")] in
  load_config (with_document w (JObject [("selectors", JArray [JObject kv])]))
    "configs.json"
  = ([], Ret (JArray [JObject kv]))
  /\ load_config (with_document w (JObject kv)) "configs.json"
     = ([], Ret (JArray [JObject kv]))
  /\ load_config (with_document w (JArray [JObject kv])) "configs.json"
     = ([], Ret (JArray [JObject kv])).
Proof.
  intros w0 kv.
  destruct (config_shapes_agree w0 "configs.json" [JObject kv])
    as [Hsel [Hone Harr]].
  rewrite (Hsel [("selectors", JArray [JObject kv])] eq_refl).
  rewrite (Hone kv eq_refl eq_refl).
  split; [|split]; apply Harr; (reflexivity || discriminate).
Defined.

(** ** Loading the series *)

Lemma set_keys {V : Type} (k c : string) (v : V) (d : list (string * V)) :
  In c (map fst (PyDict.set String.eqb k v d)) <-> c = k \/ In c (map fst d).
Proof.
  induction d as [|[k' v'] d IH]; simpl.
  - intuition.
  - destruct (String.eqb_spec k' k) as [->|Hne]; simpl.
    + intuition.
    + rewrite IH. intuition.
Qed.

Section Loading.
Variable w : World.

Lemma load_frames_spec (dir : string) (codes : list string) :
  (forall c, In c codes -> path_exists w (csv_path w dir c) = true ->
             exists df, read_csv w (csv_path w dir c) = Ret df) ->
  forall frames0, exists frames,
    load_frames w dir codes frames0 = (map (load_event w dir) codes, Ret frames)
    /\ (forall c, In c (map fst frames) <->
                  In c (map fst frames0)
                  \/ (In c codes /\ path_exists w (csv_path w dir c) = true)).
Proof.
  induction codes as [|code rest IH]; intros Hread frames0.
  - exists frames0. split; [reflexivity|]. intros c. simpl. intuition.
  - simpl. unfold load_event at 1. fold (csv_path w dir code).
    destruct (path_exists w (csv_path w dir code)) eqn:E; simpl.
    + destruct (Hread code (or_introl eq_refl) E) as [df Hdf].
      destruct (IH (fun c Hc => Hread c (or_intror Hc))
                  (PyDict.set String.eqb code (sort_values w df) frames0))
        as [frames [Hrun Hkeys]].
      exists frames. split.
      * rewrite Hdf. unfold bind; simpl. now rewrite Hrun.
      * intros c. rewrite Hkeys, set_keys. split.
        -- intros [[->|H]|[H1 H2]]; auto.
        -- intros [H|[[<-|H1] H2]]; auto.
    + destruct (IH (fun c Hc => Hread c (or_intror Hc)) frames0)
        as [frames [Hrun Hkeys]].
      exists frames. split.
      * unfold bind; simpl. now rewrite Hrun.
      * intros c. rewrite Hkeys. split.
        -- intros [H|[H1 H2]]; auto.
        -- intros [H|[[<-|H1] H2]]; auto. congruence.
Qed.

(** C6.  Provided each requested file that is present can be read,
    [load_data] returns a mapping whose keys are exactly the requested
    codes with a file; it reads each present file and logs one warning
    for each missing one, in the order of the request.  When no requested
    code has a file (as when nothing is requested) the mapping is empty,
    and [run_select_stock] logs an error and returns [None]. *)
Theorem load_data_exact (args : Args) (etf : option EtfInfo) :
  let dir := data_dir args in
  let codes := resolve_codes w args in
  (forall c, In c codes -> path_exists w (csv_path w dir c) = true ->
             exists df, read_csv w (csv_path w dir c) = Ret df) ->
  exists frames,
    load_data w dir codes = (map (load_event w dir) codes, Ret frames)
    /\ (forall c, In c (map fst frames) <->
                  In c codes /\ path_exists w (csv_path w dir c) = true)
    /\ (path_exists w dir = true ->
        (forall c, In c codes -> path_exists w (csv_path w dir c) = false) ->
        frames = []
        /\ run_select_stock w args etf
           = (map (load_event w dir) codes
              ++ [Log ERROR (match codes with
                             | [] => MsgEmptyPool
                             | _ => MsgNoData
                             end)], Ret None)).
Proof.
  intros dir codes Hread.
  destruct (load_frames_spec dir codes Hread []) as [frames [Hrun Hkeys]].
  exists frames. split; [exact Hrun|]. split.
  - intros c. rewrite Hkeys. simpl. intuition.
  - intros Hdir Hnone.
    assert (Hempty : frames = []).
    { destruct frames as [|[c df] rest]; [reflexivity|]. exfalso.
      destruct (proj1 (Hkeys c)) as [[]|[Hc He]]; [simpl; auto|].
      rewrite (Hnone c Hc) in He. discriminate. }
    split; [exact Hempty|]. subst frames.
    now apply run_select_stock_no_data.
Qed.
End Loading.

(** C6 in the small world: A and B are requested and only A has a file;
    then neither has. *)
Lemma load_data_exact_witness :
  (exists frames,
     load_data (Demo.world ["data"; "data/A.csv"] JNull) "data" ["A"; "B"]
     = ([ReadCsv "data/A.csv"; Log WARNING (MsgCsvMissing "B.csv")], Ret frames)
     /\ (forall c, In c (map fst frames) <->
                   In c ["A"; "B"]
                   /\ existsb (String.eqb ("data/" ++ c ++ ".csv"))
                        ["data"; "data/A.csv"] = true))
  /\ run_select_stock (Demo.world ["data"] JNull) (Demo.args "A,B" None) None
     = ([Log WARNING (MsgCsvMissing "A.csv");
         Log WARNING (MsgCsvMissing "B.csv");
         Log ERROR MsgNoData], Ret None).
Proof.
  split.
  - destruct (load_data_exact (Demo.world ["data"; "data/A.csv"] JNull)
                (Demo.args "A,B" None) None) as [frames [Hrun [Hkeys _]]].
    + intros c [<-|[<-|[]]] H; [now exists Demo.frame_A|discriminate H].
    + exists frames. split; [exact Hrun|exact Hkeys].
  - destruct (load_data_exact (Demo.world ["data"] JNull)
                (Demo.args "A,B" None) None) as [frames [_ [_ Hnone]]].
    + intros c [<-|[<-|[]]] H; discriminate H.
    + destruct Hnone as [_ Hrun].
      * reflexivity.
      * intros c [<-|[<-|[]]]; reflexivity.
      * exact Hrun.
Defined.

(** ** The aggregate: last write wins *)

Module PyDictFacts.
Section Facts.
Context {K V : Type} (eqb : K -> K -> bool).

Lemma get_set_same (k : K) (v : V) (d : list (K * V)) :
  eqb k k = true -> PyDict.get eqb k (PyDict.set eqb k v d) = Some v.
Proof.
  intros Hk. induction d as [|[k' v'] d IH]; simpl.
  - now rewrite Hk.
  - destruct (eqb k' k) eqn:E; simpl; rewrite E; auto.
Qed.

Lemma get_set_other (k a : K) (v : V) (d : list (K * V)) :
  (forall k', eqb k' k = true -> eqb k' a = true -> eqb k a = true) ->
  eqb k a = false ->
  PyDict.get eqb a (PyDict.set eqb k v d) = PyDict.get eqb a d.
Proof.
  intros Htr Hka. induction d as [|[k' v'] d IH]; simpl.
  - now rewrite Hka.
  - destruct (eqb k' k) eqn:E; simpl.
    + destruct (eqb k' a) eqn:E'; [|reflexivity].
      rewrite (Htr k' E E') in Hka. discriminate.
    + now rewrite IH.
Qed.

Lemma get_congr (a b : K) (d : list (K * V)) :
  (forall k', eqb k' a = eqb k' b) ->
  PyDict.get eqb a d = PyDict.get eqb b d.
Proof.
  intros H. induction d as [|[k' v'] d IH]; simpl; [reflexivity|].
  now rewrite H, IH.
Qed.
End Facts.
End PyDictFacts.

Lemma key_eqb_spec (a b : json) :
  key_eqb a b = true <-> exists k, key_of a = Some k /\ key_of b = Some k.
Proof.
  destruct a as [|x|n|s|l|kv], b as [|y|m|t|l'|kv']; simpl;
    try (split; [discriminate|intros [k [H1 H2]]; congruence]).
  - split; eauto.
  - split.
    + intros H. apply Bool.eqb_prop in H. subst. eauto.
    + intros [k [H1 H2]]. destruct x, y; try reflexivity; simpl in *; congruence.
  - rewrite Z.eqb_eq. split.
    + intros ->. eauto.
    + intros [k [H1 H2]]. congruence.
  - rewrite Z.eqb_eq. split.
    + intros <-. eauto.
    + intros [k [H1 H2]]. congruence.
  - rewrite Z.eqb_eq. split.
    + intros ->. eauto.
    + intros [k [H1 H2]]. congruence.
  - rewrite String.eqb_eq. split.
    + intros ->. eauto.
    + intros [k [H1 H2]]. congruence.
Qed.

Lemma key_eqb_refl (a : json) : hashable a = true -> key_eqb a a = true.
Proof.
  intros H. apply key_eqb_spec. destruct a; simpl in *; try discriminate; eauto.
Qed.

Lemma key_eqb_euclid (k' k a : json) :
  key_eqb k' k = true -> key_eqb k' a = true -> key_eqb k a = true.
Proof.
  rewrite !key_eqb_spec. intros [x [H1 H2]] [y [H3 H4]].
  exists x. split; congruence.
Qed.

Lemma key_eqb_sym (a b : json) : key_eqb a b = key_eqb b a.
Proof.
  destruct (key_eqb a b) eqn:E, (key_eqb b a) eqn:E'; try reflexivity.
  - apply key_eqb_spec in E. destruct E as [k [H1 H2]].
    assert (key_eqb b a = true) by (apply key_eqb_spec; eauto). congruence.
  - apply key_eqb_spec in E'. destruct E' as [k [H1 H2]].
    assert (key_eqb a b = true) by (apply key_eqb_spec; eauto). congruence.
Qed.

Lemma key_eqb_congr (a b k' : json) :
  key_eqb a b = true -> key_eqb k' a = key_eqb k' b.
Proof.
  intros Hab.
  destruct (key_eqb k' a) eqn:E, (key_eqb k' b) eqn:E'; try reflexivity.
  - rewrite key_eqb_sym in E.
    rewrite (key_eqb_euclid a k' b E Hab) in E'. discriminate.
  - rewrite key_eqb_sym in Hab, E'.
    rewrite (key_eqb_euclid b k' a E' Hab) in E. discriminate.
Qed.

Section Aggregate.
Variable w : World.

(** An iteration that returns has either left the results as they were
    or stored the picks of an executed configuration under its alias. *)
Lemma selector_step_Ret (td : Timestamp) (data : Data) (etf : option EtfInfo)
    (r r' : Results) (cfg : json) (l : list event) :
  selector_step w td data etf r cfg = (l, Ret r') ->
  match executed w td data cfg with
  | Some (a, p) => hashable a = true /\ r' = PyDict.set key_eqb a p r
  | None => r' = r
  end.
Proof.
  unfold executed.
  destruct (py_get cfg "activate" (JBool true)) as [v|e] eqn:Hv;
    [|unfold selector_step; rewrite Hv; discriminate].
  destruct (is_False v) eqn:Hf.
  { unfold selector_step. rewrite Hv.
    change (lift (Ret v)) with (ret v). rewrite bind_ret_l, Hf.
    intros H. now injection H as _ <-. }
  rewrite (selector_step_active w _ _ _ _ _ _ Hv Hf).
  destruct (instantiate_selector w cfg) as [lI [[alias sel]|e]] eqn:Hi.
  - rewrite (try_instantiate_Ret w _ _ _ Hi), bind_Ret. cbv beta iota.
    set (rep := report etf alias td). clearbody rep. cbn [snd].
    destruct (sel td data) as [p|e]; [|discriminate].
    unfold setitem. destruct (hashable alias); [|discriminate].
    unfold bind; simpl.
    destruct (rep p) as [lr [u|e]]; simpl; [|discriminate].
    intros H. injection H as _ <-. auto.
  - cbn [snd]. destruct (is_Exception e) eqn:He.
    + rewrite (try_instantiate_caught w _ _ _ Hi He), bind_Ret.
      intros H. now injection H as _ <-.
    + unfold try_instantiate, try_except. rewrite Hi, bind_Raise. cbn [snd].
      rewrite He. discriminate.
Qed.

(** An entry survives the rest of the loop when no executed configuration
    of the rest has its alias. *)
Lemma run_selectors_keeps (td : Timestamp) (data : Data)
    (etf : option EtfInfo) (a : json) (p : Picks) (post : list json) :
  forall (r results : Results) (l : list event),
    run_selectors w td data etf post r = (l, Ret results) ->
    PyDict.get key_eqb a r = Some p ->
    (forall cfg' a' p',
       In cfg' post -> executed w td data cfg' = Some (a', p') ->
       key_eqb a' a = false) ->
    PyDict.get key_eqb a results = Some p.
Proof.
  induction post as [|cfg post IH]; intros r results l Hrun Hget Hlater.
  - simpl in Hrun. injection Hrun as _ <-. exact Hget.
  - simpl in Hrun.
    destruct (selector_step w td data etf r cfg) as [l1 [r'|e]] eqn:Hstep;
      [|discriminate].
    rewrite bind_Ret in Hrun.
    destruct (run_selectors w td data etf post r') as [l2 res] eqn:Hrest.
    simpl in Hrun. injection Hrun as _ ->.
    apply (IH r' results l2 Hrest).
    + pose proof (selector_step_Ret _ _ _ _ _ _ _ Hstep) as Hs.
      destruct (executed w td data cfg) as [[a' p']|] eqn:Hex.
      * destruct Hs as [_ ->].
        rewrite PyDictFacts.get_set_other; auto.
        -- intros k'. apply key_eqb_euclid.
        -- apply (Hlater cfg a' p'); simpl; auto.
      * now subst r'.
    + intros cfg' a' p' Hin. apply Hlater. simpl; auto.
Qed.

Lemma run_selectors_stores (td : Timestamp) (data : Data)
    (etf : option EtfInfo) (a : json) (p : Picks) (pre post : list json)
    (cfg : json) (r results : Results) (l : list event) :
  run_selectors w td data etf (pre ++ cfg :: post) r = (l, Ret results) ->
  executed w td data cfg = Some (a, p) ->
  (forall cfg' a' p',
     In cfg' post -> executed w td data cfg' = Some (a', p') ->
     key_eqb a' a = false) ->
  PyDict.get key_eqb a results = Some p.
Proof.
  intros Hrun Hex Hlater. rewrite run_selectors_app in Hrun.
  destruct (run_selectors w td data etf pre r) as [l0 [r0|e]]; [|discriminate].
  rewrite bind_Ret in Hrun. simpl in Hrun.
  destruct (selector_step w td data etf r0 cfg) as [l1 [r1|e]] eqn:Hstep;
    [|discriminate].
  rewrite bind_Ret in Hrun.
  destruct (run_selectors w td data etf post r1) as [l2 res] eqn:Hrest.
  simpl in Hrun. injection Hrun as _ ->.
  apply (run_selectors_keeps td data etf a p post r1 results l2 Hrest);
    [|exact Hlater].
  pose proof (selector_step_Ret _ _ _ _ _ _ _ Hstep) as Hs.
  rewrite Hex in Hs. destruct Hs as [Hh ->].
  apply PyDictFacts.get_set_same. now apply key_eqb_refl.
Qed.

(** C7.  In the mapping that [run_select_stock] returns, the picks of an
    executed configuration are found under its alias whenever no executed
    configuration after it has the same alias; they are then found under
    the alias of every earlier configuration that shares it.  So of two
    executed configurations with one alias the later one's picks are
    kept, and configurations with different aliases all keep theirs. *)
Theorem last_write_wins (args : Args) (etf etf' : option EtfInfo)
    (l0 l : list event) (td : Timestamp) (data : Data)
    (pre post : list json) (cfg a : json) (p : Picks) (results : Results) :
  prologue w args etf = (l0, Ret (Some (td, data, etf', pre ++ cfg :: post))) ->
  run_select_stock w args etf = (l, Ret (Some results)) ->
  executed w td data cfg = Some (a, p) ->
  (forall cfg' a' p',
     In cfg' post -> executed w td data cfg' = Some (a', p') ->
     key_eqb a' a = false) ->
  PyDict.get key_eqb a results = Some p
  /\ (forall cfg1 a1 p1,
        In cfg1 pre -> executed w td data cfg1 = Some (a1, p1) ->
        key_eqb a1 a = true ->
        PyDict.get key_eqb a1 results = Some p).
Proof.
  intros Hp Hrun Hex Hlater.
  rewrite (run_select_stock_loop _ _ _ _ _ _ _ _ Hp) in Hrun.
  destruct (run_selectors w td data etf' (pre ++ cfg :: post) [])
    as [l1 [res|e]] eqn:Hloop; simpl in Hrun; [|discriminate].
  injection Hrun as _ <-.
  assert (Hget : PyDict.get key_eqb a res = Some p)
    by (apply (run_selectors_stores _ _ _ _ _ _ _ _ _ _ _ Hloop Hex Hlater)).
  split; [exact Hget|].
  intros cfg1 a1 p1 _ _ Hsame. rewrite <- Hget.
  apply PyDictFacts.get_congr. intros k'. now apply key_eqb_congr.
Qed.
End Aggregate.

(** C7 in the small world: [Good] and [Other] share the alias [g], a
    third configuration has its own; [g] holds the picks of [Other]. *)
Lemma last_write_wins_witness :
  let w := Demo.world Demo.all_files
             (JArray [Demo.spec "Good" "g"; Demo.spec "Other" "g";
                      Demo.spec "Good" "h"]) in
  let results := [(JString "g", ["B"]); (JString "h", ["A"])] in
  snd (run_select_stock w (Demo.args "A" (Some "2024-01-02")) None)
  = Ret (Some results)
  /\ PyDict.get key_eqb (JString "g") results = Some ["B"].
Proof.
  intros w0 results. split; [reflexivity|].
  eapply proj1.
  eapply (last_write_wins w0 (Demo.args "A" (Some "2024-01-02")) None None
            [ReadCsv "data/A.csv"] _ (TS 20240102)
            [("A", sort_by_date Demo.frame_A)]
            [Demo.spec "Good" "g"] [Demo.spec "Good" "h"]
            (Demo.spec "Other" "g") (JString "g") ["B"] results).
  - reflexivity.
  - reflexivity.
  - reflexivity.
  - intros cfg' a' p' [<-|[]] H. vm_compute in H. injection H as <- _.
    reflexivity.
Defined.

(** ** A date that does not parse *)

Section InvalidDate.
Variable w : World.

(** C8, as amended.  When the supplied date does not parse, the exception
    of [pd.to_datetime] is not handled: it leaves [run_select_stock]
    after the series are loaded, with no log record of its own, before
    the configuration is read. *)
Theorem invalid_date_raises (args : Args) (etf : option EtfInfo)
    (s : string) (e : exn) (l : list event) (data : Data) :
  path_exists w (data_dir args) = true ->
  load_data w (data_dir args) (resolve_codes w args) = (l, Ret data) ->
  data <> [] ->
  date args = Some s ->
  s <> "" ->
  to_datetime w s = Raise e ->
  run_select_stock w args etf = (l, Raise e).
Proof.
  intros Hd Hl Hne Hs Hs' He.
  rewrite run_select_stock_eq. unfold prologue, market_data.
  rewrite Hd. simpl negb. cbv iota.
  destruct (resolve_codes w args) as [|c cs].
  { unfold load_data in Hl. simpl in Hl. injection Hl as _ <-. congruence. }
  rewrite Hl, bind_Ret. destruct data as [|d ds]; [congruence|].
  unfold resolve_trade_date, opt_truthy, str_truthy. rewrite Hs.
  destruct (String.eqb_spec s ""); [congruence|]. simpl negb. cbv iota.
  rewrite He. unfold bind; simpl. now rewrite app_nil_r.
Qed.
End InvalidDate.

(** The amended C8 in the small world, whose dates are of one format. *)
Lemma invalid_date_raises_witness :
  run_select_stock (Demo.world Demo.all_files (JArray [Demo.spec "Good" "g"]))
    (Demo.args "A" (Some "02/01/2024")) None
  = ([ReadCsv "data/A.csv"], Raise ValueError).
Proof.
  apply (invalid_date_raises _ _ None "02/01/2024" ValueError _
           [("A", sort_by_date Demo.frame_A)]);
    (reflexivity || discriminate).
Defined.

(** C8, as the specification states it, fails: the run does not end with
    the failure value [None] but with the [ValueError] of the parser. *)
Lemma invalid_date_not_signalled :
  let w := Demo.world Demo.all_files (JArray [Demo.spec "Good" "g"]) in
  let args := Demo.args "all" (Some "yesterday") in
  to_datetime w "yesterday" = Raise ValueError
  /\ run_select_stock w args None
     = ([ReadCsv "data/A.csv"; ReadCsv "data/B.csv"], Raise ValueError)
  /\ snd (run_select_stock w args None) <> Ret None.
Proof.
  repeat split; try reflexivity. intros H. vm_compute in H. discriminate H.
Qed.

(** ** The test on [activate] *)

Lemma is_False_spec (v : json) : is_False v = true <-> v = JBool false.
Proof.
  destruct v as [|[|]|n|s|l|kv]; simpl; split; intros H;
    try discriminate; reflexivity.
Qed.

Lemma activate_False (kv : list (string * json)) :
  is_False (match lookup "activate" kv with Some v => v | None => JBool true end)
  = true
  <-> lookup "activate" kv = Some (JBool false).
Proof.
  rewrite is_False_spec. destruct (lookup "activate" kv) as [v|]; split;
    intros H; try discriminate; congruence.
Qed.

Section Activate.
Variable w : World.

(** A successful construction has called the class, once, on the
    parameters of the configuration. *)
Lemma instantiate_selector_Ret (cfg alias : json) (sel : Selector)
    (l : list event) :
  instantiate_selector w cfg = (l, Ret (alias, sel)) ->
  exists cls_name params,
    l = [Construct cls_name params]
    /\ py_get cfg "class" JNull = Ret cls_name
    /\ py_get cfg "params" (JObject []) = Ret params
    /\ py_get cfg "alias" cls_name = Ret alias.
Proof.
  unfold instantiate_selector.
  destruct (py_get cfg "class" JNull) as [cls_name|e] eqn:Hc; [|discriminate].
  change (lift (Ret cls_name)) with (ret cls_name). rewrite bind_ret_l.
  destruct (truthy cls_name); [|discriminate]. simpl negb. cbv iota.
  destruct (load_class w cls_name) as [cls|e]; [|discriminate].
  change (lift (Ret cls)) with (ret cls). rewrite bind_ret_l.
  destruct (py_get cfg "params" (JObject [])) as [params|e] eqn:Hp;
    [|discriminate].
  change (lift (Ret params)) with (ret params). rewrite bind_ret_l.
  destruct (py_get cfg "alias" cls_name) as [alias'|e] eqn:Ha; [|discriminate].
  change (lift (Ret alias')) with (ret alias'). rewrite bind_ret_l.
  unfold bind; simpl. destruct (cls params) as [sel'|e]; simpl; [|discriminate].
  intros H. injection H as <- <- _. exists cls_name, params.
  repeat split; assumption.
Qed.

(** C9.  The iteration for a configuration object does nothing exactly
    when its [activate] entry is the JSON [false].  With any other entry,
    or none, the configuration is instantiated, and when that succeeds
    the class has been called and [select] is called next. *)
Theorem activate_identity_test (td : Timestamp) (data : Data)
    (etf : option EtfInfo) (r : Results) (kv : list (string * json)) :
  (selector_step w td data etf r (JObject kv) = ([], Ret r)
   <-> lookup "activate" kv = Some (JBool false))
  /\ (lookup "activate" kv <> Some (JBool false) ->
      forall lI alias sel,
        instantiate_selector w (JObject kv) = (lI, Ret (alias, sel)) ->
        exists cls_name params rest,
          fst (selector_step w td data etf r (JObject kv))
          = Construct cls_name params :: Select alias td :: rest).
Proof.
  set (v := match lookup "activate" kv with Some x => x | None => JBool true end).
  assert (Hv : py_get (JObject kv) "activate" (JBool true) = Ret v) by reflexivity.
  assert (Hactive :
    is_False v = false ->
    forall lI alias sel,
      instantiate_selector w (JObject kv) = (lI, Ret (alias, sel)) ->
      exists cls_name params rest,
        fst (selector_step w td data etf r (JObject kv))
        = Construct cls_name params :: Select alias td :: rest).
  { intros Hf lI alias sel Hi.
    destruct (instantiate_selector_Ret _ _ _ _ Hi) as [c [ps [-> _]]].
    rewrite (selector_step_active w _ _ _ _ _ _ Hv Hf).
    rewrite (try_instantiate_Ret w _ _ _ Hi), bind_Ret. cbv beta iota.
    unfold bind at 1. cbn [fst snd].
    destruct (sel td data) as [p|e]; cbn; eauto. }
  split; [split|].
  - intros Hstep. apply activate_False. fold v.
    destruct (is_False v) eqn:Hf; [reflexivity|]. exfalso.
    rewrite (selector_step_active w _ _ _ _ _ _ Hv Hf) in Hstep.
    destruct (instantiate_selector w (JObject kv)) as [lI [[alias sel]|e]] eqn:Hi.
    + destruct (Hactive eq_refl _ _ _ eq_refl) as [c [ps [rest Hfst]]].
      rewrite (selector_step_active w _ _ _ _ _ _ Hv Hf) in Hfst.
      rewrite Hstep in Hfst. discriminate.
    + destruct (is_Exception e) eqn:He.
      * rewrite (try_instantiate_caught w _ _ _ Hi He), bind_Ret in Hstep.
        injection Hstep as Hnil. apply app_eq_nil in Hnil.
        destruct Hnil as [Hnil _]. apply app_eq_nil in Hnil.
        destruct Hnil as [_ Hnil]. discriminate.
      * unfold try_instantiate, try_except in Hstep.
        rewrite Hi, bind_Raise in Hstep. cbn [snd] in Hstep.
        rewrite He in Hstep. discriminate.
  - intros Hk. apply selector_step_skipped. simpl. now rewrite Hk.
  - intros Hk. apply Hactive.
    destruct (is_False v) eqn:Hf; [|reflexivity].
    exfalso. apply Hk. now apply activate_False.
Qed.
End Activate.

(** C9 in the small world: [activate] set to 0 does not deactivate. *)
Lemma activate_identity_test_witness :
  let w := Demo.world Demo.all_files JNull in
  let kv := [("class", JString "Good"); ("alias", JString "g");
             ("activate", JInt 0)] in
  exists cls_name params rest,
    fst (selector_step w (TS 5) [] None [] (JObject kv))
    = Construct cls_name params :: Select (JString "g") (TS 5) :: rest.
Proof.
  intros w0 kv.
  apply (proj2 (activate_identity_test w0 (TS 5) [] None [] kv))
    with (lI := [Construct (JString "Good") (JObject [])])
         (sel := fun _ _ => Ret ["A"]).
  - discriminate.
  - reflexivity.
Defined.

(** The other values the test lets through: the empty string, [null],
    and [false] under the key [active]. *)
Example falsy_activate_runs :
  let w := Demo.world Demo.all_files JNull in
  let run v :=
    snd (selector_step w (TS 5) [] None []
           (JObject [("class", JString "Good"); v])) in
  run ("activate", JString "") = Ret [(JString "Good", ["A"])]
  /\ run ("activate", JNull) = Ret [(JString "Good", ["A"])]
  /\ run ("activate", JInt 0) = Ret [(JString "Good", ["A"])]
  /\ run ("active", JBool false) = Ret [(JString "Good", ["A"])]
  /\ run ("activate", JBool false) = Ret [].
Proof. repeat split. Qed.

(** ** The instrument selector *)

Lemma lower_ascii_a (c : ascii) :
  lower_ascii c = "a"%char <-> c = "a"%char \/ c = "A"%char.
Proof.
  destruct c as [[] [] [] [] [] [] [] []]; vm_compute;
    (split; [intros H; try discriminate H; auto
            |intros [H|H]; try discriminate H; reflexivity]).
Qed.

Lemma lower_ascii_l (c : ascii) :
  lower_ascii c = "l"%char <-> c = "l"%char \/ c = "L"%char.
Proof.
  destruct c as [[] [] [] [] [] [] [] []]; vm_compute;
    (split; [intros H; try discriminate H; auto
            |intros [H|H]; try discriminate H; reflexivity]).
Qed.

(** [s.lower() == "all"] holds of the eight spellings and of nothing
    else. *)
Lemma lower_all (s : string) : lower s = "all" <-> In s all_spellings.
Proof.
  split.
  - destruct s as [|c1 [|c2 [|c3 [|c4 s']]]]; simpl; intros H;
      try discriminate H.
    injection H as H1 H2 H3.
    apply lower_ascii_a in H1. apply lower_ascii_l in H2.
    apply lower_ascii_l in H3.
    destruct H1 as [-> | ->], H2 as [-> | ->], H3 as [-> | ->]; tauto.
  - simpl. intros H.
    repeat (destruct H as [<-|H]; [reflexivity|]). destruct H.
Qed.

Lemma split_cons (sep : ascii) (s : string) :
  exists seg segs, split sep s = seg :: segs.
Proof.
  destruct s as [|c rest]; simpl; eauto.
  destruct (Ascii.eqb c sep); eauto.
  destruct (split sep rest); eauto.
Qed.

(** Joining the segments with the separator gives the string back. *)
Lemma join_split (sep : ascii) (s : string) :
  join (String sep "") (split sep s) = s.
Proof.
  induction s as [|c rest IH]; [reflexivity|].
  destruct (split_cons sep rest) as [seg [segs E]].
  simpl split. rewrite E in *.
  destruct (Ascii.eqb_spec c sep) as [->|Hne].
  - simpl. simpl in IH. now rewrite IH.
  - simpl in *. destruct segs; simpl; now rewrite <- IH.
Qed.

Lemma comma_not_space : is_space "," = false.
Proof. reflexivity. Qed.

Lemma has_comma_String (c : ascii) (s : string) :
  has_comma (String c s) = Ascii.eqb "," c || has_comma s.
Proof. reflexivity. Qed.

Lemma split_no_comma (s : string) :
  Forall (fun seg => has_comma seg = false) (split "," s).
Proof.
  induction s as [|c rest IH]; simpl split.
  - repeat constructor.
  - destruct (Ascii.eqb_spec c ",") as [->|Hne].
    + constructor; [reflexivity|exact IH].
    + assert (Hc : Ascii.eqb "," c = false)
        by (destruct (Ascii.eqb_spec "," c); congruence).
      destruct (split "," rest) as [|seg segs].
      * constructor; [|constructor]. now rewrite has_comma_String, Hc.
      * inversion IH; subst. constructor; [|assumption].
        now rewrite has_comma_String, Hc.
Qed.

Lemma has_comma_app (a b : string) :
  has_comma (a ++ b) = has_comma a || has_comma b.
Proof.
  induction a as [|c a IH]; [reflexivity|].
  change (String c a ++ b)%string with (String c (a ++ b)%string).
  now rewrite !has_comma_String, IH, orb_assoc.
Qed.

Lemma append_nil_end (a : string) : (a ++ "")%string = a.
Proof. induction a as [|c a IH]; simpl; [reflexivity|now rewrite IH]. Qed.

Lemma append_assoc_s (a b c : string) :
  ((a ++ b) ++ c = a ++ (b ++ c))%string.
Proof. induction a as [|x a IH]; simpl; [reflexivity|now rewrite IH]. Qed.

Lemma append_empty (a b : string) :
  (a ++ b)%string = "" -> a = "" /\ b = "".
Proof. destruct a; simpl; [auto|discriminate]. Qed.

Lemma blank_app (a b : string) : blank a -> blank b -> blank (a ++ b).
Proof.
  induction 1 as [|t s Ht Hs IH]; intros Hb; [exact Hb|].
  rewrite append_assoc_s. apply blank_cons; auto.
Qed.

Lemma lstrip_eq (s : string) :
  lstrip s
  = match s with
    | EmptyString => EmptyString
    | String c1 r1 =>
        if is_space c1 then lstrip r1
        else
          match r1 with
          | EmptyString => s
          | String c2 r2 =>
              if is_space2 c1 c2 then lstrip r2
              else
                match r2 with
                | EmptyString => s
                | String c3 r3 =>
                    if is_space3 c1 c2 c3 then lstrip r3 else s
                end
          end
    end.
Proof. destruct s; reflexivity. Qed.

(** What a string that starts with a white space character starts
    with. *)
Lemma starts_with_space_inv (s : string) :
  starts_with_space s ->
  match s with
  | EmptyString => False
  | String c1 r1 =>
      is_space c1 = true
      \/ match r1 with
         | EmptyString => False
         | String c2 r2 =>
             is_space2 c1 c2 = true
             \/ match r2 with
                | EmptyString => False
                | String c3 r3 => is_space3 c1 c2 c3 = true
                end
         end
  end.
Proof.
  intros [t [r [Ht ->]]].
  destruct t as [|a [|b [|c [|d t']]]]; simpl in *; try discriminate; auto.
Qed.

Lemma not_starts_empty : ~ starts_with_space "".
Proof. intros H. exact (starts_with_space_inv _ H). Qed.

Lemma not_ends_empty : ~ ends_with_space "".
Proof.
  intros [t [r [Ht E]]]. symmetry in E. apply append_empty in E.
  destruct E as [_ ->]. discriminate.
Qed.

(** [lstrip] takes a run of white space off the head, and what is left
    does not start with white space. *)
Lemma lstrip_bounded (n : nat) (s : string) :
  String.length s <= n ->
  exists before,
    blank before /\ s = (before ++ lstrip s)%string
    /\ ~ starts_with_space (lstrip s).
Proof.
  revert s. induction n as [|n IH]; intros s Hlen.
  { destruct s; simpl in Hlen; [|lia].
    exists "". split; [constructor|]. split; [reflexivity|].
    apply not_starts_empty. }
  rewrite lstrip_eq. destruct s as [|c1 r1].
  { exists "". split; [constructor|]. split; [reflexivity|].
    apply not_starts_empty. }
  simpl in Hlen. destruct (is_space c1) eqn:E1.
  { destruct (IH r1) as [b [Hb [Hs Hn]]]; [lia|].
    exists (String c1 "" ++ b)%string. split; [now apply blank_cons|].
    split; [|exact Hn]. simpl. now rewrite <- Hs. }
  destruct r1 as [|c2 r2].
  { exists "". split; [constructor|]. split; [reflexivity|].
    intros H. apply starts_with_space_inv in H.
    destruct H as [H|[]]. congruence. }
  simpl in Hlen. destruct (is_space2 c1 c2) eqn:E2.
  { destruct (IH r2) as [b [Hb [Hs Hn]]]; [lia|].
    exists (String c1 (String c2 "") ++ b)%string. split; [now apply blank_cons|].
    split; [|exact Hn]. simpl. now rewrite <- Hs. }
  destruct r2 as [|c3 r3].
  { exists "". split; [constructor|]. split; [reflexivity|].
    intros H. apply starts_with_space_inv in H.
    destruct H as [H|[H|[]]]; congruence. }
  simpl in Hlen. destruct (is_space3 c1 c2 c3) eqn:E3.
  { destruct (IH r3) as [b [Hb [Hs Hn]]]; [lia|].
    exists (String c1 (String c2 (String c3 "")) ++ b)%string.
    split; [now apply blank_cons|].
    split; [|exact Hn]. simpl. now rewrite <- Hs. }
  exists "". split; [constructor|]. split; [reflexivity|].
  intros H. apply starts_with_space_inv in H.
  destruct H as [H|[H|H]]; congruence.
Qed.

Lemma lstrip_spec (s : string) :
  exists before,
    blank before /\ s = (before ++ lstrip s)%string
    /\ ~ starts_with_space (lstrip s).
Proof. apply (lstrip_bounded (String.length s)). lia. Qed.

(** [rstrip] takes a run of white space off the end, and what is left
    does not end with white space. *)
Lemma rstrip_spec (s : string) :
  exists after,
    blank after /\ s = (rstrip s ++ after)%string
    /\ ~ ends_with_space (rstrip s).
Proof.
  induction s as [|c rest IH].
  { exists "". split; [constructor|]. split; [reflexivity|].
    apply not_ends_empty. }
  destruct IH as [a [Ha [Hs Hn]]]. cbn [rstrip].
  destruct (space_char (String c (rstrip rest))) eqn:E.
  - exists (String c (rstrip rest) ++ a)%string. split; [now apply blank_cons|].
    split; [|apply not_ends_empty]. simpl. now rewrite <- Hs.
  - exists a. split; [exact Ha|]. split; [simpl; now rewrite <- Hs|].
    intros [t [r [Ht Hr]]]. destruct r as [|x r]; simpl in Hr.
    + rewrite <- Hr in Ht. congruence.
    + injection Hr as _ Hr. apply Hn. now exists t, r.
Qed.

Lemma lstrip_fixed (s : string) : ~ starts_with_space s -> lstrip s = s.
Proof.
  intros H. rewrite lstrip_eq. destruct s as [|c1 r1]; [reflexivity|].
  destruct (is_space c1) eqn:E1.
  { exfalso. apply H. exists (String c1 ""), r1. now split. }
  destruct r1 as [|c2 r2]; [reflexivity|].
  destruct (is_space2 c1 c2) eqn:E2.
  { exfalso. apply H. exists (String c1 (String c2 "")), r2. now split. }
  destruct r2 as [|c3 r3]; [reflexivity|].
  destruct (is_space3 c1 c2 c3) eqn:E3; [|reflexivity].
  exfalso. apply H. exists (String c1 (String c2 (String c3 ""))), r3.
  now split.
Qed.

Lemma rstrip_fixed (s : string) : ~ ends_with_space s -> rstrip s = s.
Proof.
  induction s as [|c rest IH]; [reflexivity|]. intros H. cbn [rstrip].
  rewrite IH.
  - destruct (space_char (String c rest)) eqn:E; [|reflexivity].
    exfalso. apply H. exists (String c rest), "". now split.
  - intros [t [r [Ht Hr]]]. apply H. exists t, (String c r).
    split; [exact Ht|]. simpl. now rewrite <- Hr.
Qed.

(** Taking white space off the end leaves the head as it is. *)
Lemma rstrip_keeps_head (s : string) :
  ~ starts_with_space s -> ~ starts_with_space (rstrip s).
Proof.
  intros H [t [r [Ht Hr]]]. destruct (rstrip_spec s) as [a [_ [Hs _]]].
  apply H. exists t, (r ++ a)%string. split; [exact Ht|].
  now rewrite Hs, Hr, append_assoc_s.
Qed.

(** [strip] takes the white space around a string, all of it and nothing
    else. *)
Lemma strip_spec (seg : string) : stripped_of seg (strip seg).
Proof.
  unfold stripped_of, strip.
  destruct (lstrip_spec seg) as [b [Hb [Hs Hn]]].
  destruct (rstrip_spec (lstrip seg)) as [a [Ha [Hl He]]].
  split; [|split].
  - exists b, a. split; [exact Hb|]. split; [exact Ha|].
    now rewrite <- Hl.
  - now apply rstrip_keeps_head.
  - exact He.
Qed.

(** Stripping twice is stripping once. *)
Lemma strip_idem (s : string) : strip (strip s) = strip s.
Proof.
  destruct (strip_spec s) as [_ [Hn He]]. unfold strip at 1.
  rewrite (lstrip_fixed _ Hn). now apply rstrip_fixed.
Qed.

Lemma has_comma_strip (seg : string) :
  has_comma seg = false -> has_comma (strip seg) = false.
Proof.
  destruct (strip_spec seg) as [[b [a [_ [_ E]]]] _]. intros H.
  rewrite E, !has_comma_app in H.
  apply orb_false_elim in H. destruct H as [_ H].
  apply orb_false_elim in H. apply H.
Qed.

Lemma map_filter_strip (l : list string) :
  map strip (filter (fun c => str_truthy (strip c)) l)
  = filter str_truthy (map strip l).
Proof.
  induction l as [|x l IH]; simpl; [reflexivity|].
  destruct (str_truthy (strip x)); simpl; now rewrite IH.
Qed.

Section Tickers.
Variable w : World.

Lemma resolve_codes_list (args : Args) :
  lower (tickers args) <> "all" ->
  resolve_codes w args
  = filter str_truthy (map strip (split "," (tickers args))).
Proof.
  intros H. unfold resolve_codes.
  destruct (String.eqb_spec (lower (tickers args)) "all"); [congruence|].
  apply map_filter_strip.
Qed.

(** C10.  The selector is [all] in any of its eight spellings, and then
    the codes are the stems of the files of the data directory.
    Otherwise the codes are the comma-separated segments of the selector
    (joined by commas they give it back), each stripped of surrounding
    white space, the empty ones dropped, in the order of the selector:
    stripping a segment takes a run of white space off each side of it
    and leaves a string with no white space at either end, so that a
    code has none, is not empty and holds no comma.
    An empty list of codes makes [run_select_stock] log an error and
    return [None] with no file read. *)
Theorem tickers_selector (args : Args) (etf : option EtfInfo) :
  (lower (tickers args) = "all" <-> In (tickers args) all_spellings)
  /\ (In (tickers args) all_spellings ->
      resolve_codes w args = glob_csv w (data_dir args))
  /\ (~ In (tickers args) all_spellings ->
      resolve_codes w args
      = filter str_truthy (map strip (split "," (tickers args)))
      /\ join "," (split "," (tickers args)) = tickers args
      /\ (forall seg, stripped_of seg (strip seg))
      /\ Forall (fun c => c <> "" /\ strip c = c /\ has_comma c = false
                          /\ ~ starts_with_space c /\ ~ ends_with_space c)
           (resolve_codes w args))
  /\ (path_exists w (data_dir args) = true ->
      resolve_codes w args = [] ->
      run_select_stock w args etf = ([Log ERROR MsgEmptyPool], Ret None)).
Proof.
  split; [apply lower_all|]. split; [|split].
  - intros H. apply lower_all in H. unfold resolve_codes. now rewrite H.
  - intros H.
    assert (Hl : lower (tickers args) <> "all")
      by (intros E; apply H, lower_all, E).
    rewrite (resolve_codes_list args Hl).
    split; [reflexivity|]. split; [apply join_split|].
    split; [exact strip_spec|].
    apply Forall_forall. intros c Hc. apply filter_In in Hc.
    destruct Hc as [Hin Ht]. apply in_map_iff in Hin.
    destruct Hin as [seg [<- Hseg]].
    destruct (strip_spec seg) as [_ [Hn He]].
    split; [|split; [|split; [|split]]].
    + unfold str_truthy in Ht. intros E. rewrite E in Ht. discriminate.
    + apply strip_idem.
    + apply has_comma_strip.
      exact (proj1 (Forall_forall _ _) (split_no_comma (tickers args)) seg Hseg).
    + exact Hn.
    + exact He.
  - intros Hd Hc. unfold run_select_stock. now rewrite Hd, Hc.
Qed.
End Tickers.

(** The white space of the examples: a space, a tab, a no-break space
    (U+00A0) and an ideographic space (U+3000), in UTF-8. *)
Example strip_codes :
  map strip [" a"; " A "; ""; "B "; " "] = ["a"; "A"; ""; "B"; ""]
  /\ strip (String (ascii_of_nat 9)
              (String (ascii_of_nat 194) (String (ascii_of_nat 160)
                 (String (ascii_of_nat 227) (String (ascii_of_nat 128)
                    (String (ascii_of_nat 128) "600 519"))))))
     = "600 519"
  /\ strip (String "6" (String (ascii_of_nat 227) (String (ascii_of_nat 128)
              (String (ascii_of_nat 128) (String (ascii_of_nat 194)
                 (String (ascii_of_nat 160) " "))))))
     = "6".
Proof. repeat split. Qed.

(** C10 in the small world: a selector with blanks and empty segments,
    and one of blanks only. *)
Lemma tickers_selector_witness :
  resolve_codes (Demo.world Demo.all_files JNull) (Demo.args "aLL" None)
  = ["A"; "B"]
  /\ resolve_codes (Demo.world Demo.all_files JNull)
       (Demo.args " a, A ,,B , " None)
     = ["a"; "A"; "B"]
  /\ stripped_of " A " "A"
  /\ run_select_stock (Demo.world Demo.all_files JNull)
       (Demo.args " , ,, " None) None
     = ([Log ERROR MsgEmptyPool], Ret None).
Proof.
  assert (Hlist : ~ In " a, A ,,B , " all_spellings).
  { simpl. intros H.
    repeat (destruct H as [H|H]; [discriminate H|]). exact H. }
  split; [|split; [|split]].
  - apply (proj1 (proj2 (tickers_selector (Demo.world Demo.all_files JNull)
                           (Demo.args "aLL" None) None))).
    simpl. tauto.
  - etransitivity.
    + apply (proj1 (proj2 (proj2 (tickers_selector
                                    (Demo.world Demo.all_files JNull)
                                    (Demo.args " a, A ,,B , " None) None)))).
      exact Hlist.
    + reflexivity.
  - exact (proj1 (proj2 (proj2 (proj1 (proj2 (proj2 (tickers_selector
                                    (Demo.world Demo.all_files JNull)
                                    (Demo.args " a, A ,,B , " None) None)))
                                  Hlist))) " A ").
  - apply (proj2 (proj2 (proj2 (tickers_selector
                                  (Demo.world Demo.all_files JNull)
                                  (Demo.args " , ,, " None) None))));
      reflexivity.
Defined.

(** * Further properties of [select_stock.py] *)

(** ** The series that [load_data] stores *)

Lemma date_leb_total (a b : Timestamp) :
  date_leb a b = false -> date_leb b a = true.
Proof.
  destruct a as [|x], b as [|y]; simpl; try discriminate; auto.
  intros H. apply Z.leb_gt in H. apply Z.leb_le. lia.
Qed.

Lemma date_leb_trans (a b c : Timestamp) :
  date_leb a b = true -> date_leb b c = true -> date_leb a c = true.
Proof.
  destruct a as [|x], b as [|y], c as [|z]; simpl; try discriminate; auto.
  rewrite !Z.leb_le. lia.
Qed.

Lemma insert_bar_perm (b : bar) (df : DataFrame) :
  Permutation (b :: df) (insert_bar b df).
Proof.
  induction df as [|b' df IH]; simpl; [reflexivity|].
  destruct (date_leb (bar_date b) (bar_date b')); [reflexivity|].
  rewrite perm_swap. now apply perm_skip.
Qed.

Lemma sort_by_date_perm (df : DataFrame) : Permutation df (sort_by_date df).
Proof.
  induction df as [|b df IH]; simpl; [reflexivity|].
  rewrite <- insert_bar_perm. now apply perm_skip.
Qed.

Lemma insert_bar_ascending (b : bar) (df : DataFrame) :
  ascending df -> ascending (insert_bar b df).
Proof.
  unfold ascending. induction df as [|b' df IH]; simpl; intros H.
  - repeat constructor.
  - apply StronglySorted_inv in H. destruct H as [Hs Hall].
    destruct (date_leb (bar_date b) (bar_date b')) eqn:E.
    + constructor; [constructor; assumption|].
      constructor; [exact E|].
      apply Forall_forall. intros x Hx. unfold date_le.
      apply (date_leb_trans _ (bar_date b')); [exact E|].
      exact (proj1 (Forall_forall _ _) Hall x Hx).
    + constructor; [now apply IH|].
      apply Forall_forall. intros x Hx.
      apply (Permutation_in _ (Permutation_sym (insert_bar_perm b df))) in Hx.
      destruct Hx as [<-|Hx].
      * now apply date_leb_total.
      * exact (proj1 (Forall_forall _ _) Hall x Hx).
Qed.

Lemma sort_by_date_ascending (df : DataFrame) : ascending (sort_by_date df).
Proof.
  induction df as [|b df IH]; simpl.
  - constructor.
  - now apply insert_bar_ascending.
Qed.

Lemma set_In {V : Type} (k c : string) (v x : V) (d : list (string * V)) :
  In (c, x) (PyDict.set String.eqb k v d) ->
  In (c, x) d \/ (c = k /\ x = v).
Proof.
  induction d as [|[k' v'] d IH]; simpl.
  - intros [H|[]]. injection H as <- <-. auto.
  - destruct (String.eqb_spec k' k) as [->|Hne]; simpl.
    + intros [H|H]; [injection H as <- <-|]; auto.
    + intros [H|H]; auto. destruct (IH H); auto.
Qed.

Section LoadedSeries.
Variable w : World.

Lemma load_frames_values (dir : string) (codes : list string) :
  forall (frames0 frames : Data) (l : list event),
    load_frames w dir codes frames0 = (l, Ret frames) ->
    forall c df,
      In (c, df) frames ->
      In (c, df) frames0
      \/ (In c codes
          /\ exists raw, read_csv w (csv_path w dir c) = Ret raw
                         /\ df = sort_values w raw).
Proof.
  induction codes as [|code rest IH]; intros frames0 frames l Hrun c df Hin.
  - simpl in Hrun. injection Hrun as _ <-. auto.
  - simpl in Hrun. fold (csv_path w dir code) in Hrun.
    destruct (path_exists w (csv_path w dir code)); simpl in Hrun.
    + destruct (read_csv w (csv_path w dir code)) as [raw|e] eqn:Hraw;
        [|discriminate].
      unfold bind in Hrun; simpl in Hrun.
      destruct (load_frames w dir rest _) as [l' res] eqn:Hrest.
      simpl in Hrun. injection Hrun as _ ->.
      destruct (IH _ _ _ Hrest c df Hin) as [H|[H1 H2]].
      * apply set_In in H. destruct H as [H|[-> ->]]; [auto|].
        right. split; [simpl; auto|]. exists raw. auto.
      * right. split; [simpl; auto|exact H2].
    + unfold bind in Hrun; simpl in Hrun.
      destruct (load_frames w dir rest frames0) as [l' res] eqn:Hrest.
      simpl in Hrun. injection Hrun as _ ->.
      destruct (IH _ _ _ Hrest c df Hin) as [H|[H1 H2]]; [auto|].
      right. split; [simpl; auto|exact H2].
Qed.

(** X1.  Every series in the mapping that [load_data] returns belongs
    to a requested code and is what [sort_values] made of the file of
    that code as [pd.read_csv] gave it.  So, [sort_values] being an
    ascending sort, the series holds the rows of the file, and none of
    its rows is dated after a row that follows it (rows without a date
    come last). *)
Theorem loaded_series_sorted (dir : string) (codes : list string)
    (l : list event) (frames : Data) (c : string) (df : DataFrame) :
  (forall raw, ascending (sort_values w raw)
               /\ Permutation raw (sort_values w raw)) ->
  load_data w dir codes = (l, Ret frames) ->
  In (c, df) frames ->
  In c codes
  /\ ascending df
  /\ exists raw,
       read_csv w (csv_path w dir c) = Ret raw
       /\ df = sort_values w raw
       /\ Permutation raw df.
Proof.
  intros Hsort Hrun Hin.
  destruct (load_frames_values dir codes [] frames l Hrun c df Hin)
    as [[]|[Hc [raw [Hraw ->]]]].
  split; [exact Hc|]. split; [apply Hsort|].
  exists raw. split; [exact Hraw|]. split; [reflexivity|].
  apply Hsort.
Qed.
End LoadedSeries.

(** X1 in the small world: series A is stored in the order 1, 2, 3. *)
Lemma loaded_series_sorted_witness :
  ascending [Demo.mkbar 1; Demo.mkbar 2; Demo.mkbar 3]
  /\ exists raw,
       read_csv (Demo.world Demo.all_files JNull) "data/A.csv" = Ret raw
       /\ [Demo.mkbar 1; Demo.mkbar 2; Demo.mkbar 3] = sort_by_date raw
       /\ Permutation raw [Demo.mkbar 1; Demo.mkbar 2; Demo.mkbar 3].
Proof.
  apply (loaded_series_sorted (Demo.world Demo.all_files JNull) "data"
           ["A"; "C"]
           [ReadCsv "data/A.csv"; Log WARNING (MsgCsvMissing "C.csv")]
           [("A", [Demo.mkbar 1; Demo.mkbar 2; Demo.mkbar 3])] "A").
  - intros raw. split; [apply sort_by_date_ascending|apply sort_by_date_perm].
  - reflexivity.
  - simpl. auto.
Defined.

(** ** A history file that cannot be read *)

Section Unreadable.
Variable w : World.

Lemma load_frames_app (dir : string) (pre post : list string) (frames : Data) :
  load_frames w dir (pre ++ post) frames
  = bind (load_frames w dir pre frames) (fun f => load_frames w dir post f).
Proof.
  revert frames. induction pre as [|c pre IH]; intros frames; simpl.
  - now rewrite bind_ret_l.
  - destruct (negb (path_exists w (joinpath w dir (c ++ ".csv")))).
    + rewrite bind_assoc. apply bind_ext. intros _. apply IH.
    + rewrite !bind_assoc. apply bind_ext. intros _.
      apply bind_ext. intros df. apply IH.
Qed.

Lemma load_frames_raises (dir : string) (pre post : list string) (c : string)
    (e : exn) (frames0 : Data) :
  (forall c', In c' pre -> path_exists w (csv_path w dir c') = true ->
              exists df, read_csv w (csv_path w dir c') = Ret df) ->
  path_exists w (csv_path w dir c) = true ->
  read_csv w (csv_path w dir c) = Raise e ->
  load_frames w dir (pre ++ c :: post) frames0
  = (map (load_event w dir) pre ++ [ReadCsv (csv_path w dir c)], Raise e).
Proof.
  intros Hpre Hc He. rewrite load_frames_app.
  destruct (load_frames_spec w dir pre Hpre frames0) as [frames [Hrun _]].
  rewrite Hrun, bind_Ret. simpl load_frames. fold (csv_path w dir c).
  rewrite Hc, He. reflexivity.
Qed.

(** X2.  A requested file that is present and that [pd.read_csv] cannot
    read is not skipped: the exception of the reader leaves [load_data]
    and [run_select_stock] at that file, after the files requested
    before it have been read, and the codes after it are not looked
    at. *)
Theorem unreadable_file_aborts (args : Args) (etf : option EtfInfo)
    (pre post : list string) (c : string) (e : exn) :
  let dir := data_dir args in
  path_exists w dir = true ->
  resolve_codes w args = pre ++ c :: post ->
  (forall c', In c' pre -> path_exists w (csv_path w dir c') = true ->
              exists df, read_csv w (csv_path w dir c') = Ret df) ->
  path_exists w (csv_path w dir c) = true ->
  read_csv w (csv_path w dir c) = Raise e ->
  run_select_stock w args etf
  = (map (load_event w dir) pre ++ [ReadCsv (csv_path w dir c)], Raise e).
Proof.
  intros dir Hd Hcodes Hpre Hc He. subst dir.
  pose proof (load_frames_raises (data_dir args) pre post c e [] Hpre Hc He)
    as Hload.
  unfold run_select_stock. rewrite Hd, Hcodes. simpl negb. cbv iota.
  unfold load_data in *.
  destruct pre as [|c0 pre0]; simpl app in *; cbv iota; rewrite Hload;
    reflexivity.
Qed.
End Unreadable.

(** X2 in the small world, where a file named [data/C.csv] is present
    and unreadable. *)
Lemma unreadable_file_aborts_witness :
  run_select_stock
    (Demo.world ["data"; "data/A.csv"; "data/C.csv"; "data/B.csv"] JNull)
    (Demo.args "A,X,C,B" None) None
  = ([ReadCsv "data/A.csv"; Log WARNING (MsgCsvMissing "X.csv")]
     ++ [ReadCsv "data/C.csv"], Raise OSError).
Proof.
  apply (unreadable_file_aborts
           (Demo.world ["data"; "data/A.csv"; "data/C.csv"; "data/B.csv"] JNull)
           (Demo.args "A,X,C,B" None) None ["A"; "X"] ["B"] "C" OSError).
  - reflexivity.
  - reflexivity.
  - intros c' [<-|[<-|[]]] H; [now exists Demo.frame_A|discriminate H].
  - reflexivity.
  - reflexivity.
Defined.

(** ** Where the loop stops and where it goes on *)

Section LoopOutcomes.
Variable w : World.

Lemma run_selectors_cons_Ret (td : Timestamp) (data : Data)
    (etf : option EtfInfo) (cfg : json) (post : list json)
    (r r' : Results) (ls : list event) :
  selector_step w td data etf r cfg = (ls, Ret r') ->
  run_selectors w td data etf (cfg :: post) r
  = (ls ++ fst (run_selectors w td data etf post r'),
     snd (run_selectors w td data etf post r')).
Proof. intros H. simpl. now rewrite H, bind_Ret. Qed.

(** An exception that leaves an iteration leaves [run_select_stock]. *)
Lemma run_select_stock_step_raises (args : Args) (etf etf' : option EtfInfo)
    (l l1 ls : list event) (td : Timestamp) (data : Data)
    (pre post : list json) (cfg : json) (r1 : Results) (e : exn) :
  prologue w args etf = (l, Ret (Some (td, data, etf', pre ++ cfg :: post))) ->
  run_selectors w td data etf' pre [] = (l1, Ret r1) ->
  selector_step w td data etf' r1 cfg = (ls, Raise e) ->
  run_select_stock w args etf = (l ++ l1 ++ ls, Raise e).
Proof.
  intros Hp Hpre Hstep.
  rewrite (run_select_stock_loop _ _ _ _ _ _ _ _ Hp).
  rewrite run_selectors_app, Hpre, bind_Ret. simpl run_selectors.
  rewrite Hstep, bind_Raise. reflexivity.
Qed.

Lemma selector_step_not_dict (td : Timestamp) (data : Data)
    (etf : option EtfInfo) (r : Results) (cfg : json) :
  isinstance_dict cfg = false ->
  selector_step w td data etf r cfg = ([], Raise AttributeError).
Proof. destruct cfg; simpl; intros H; try discriminate H; reflexivity. Qed.

(** X3.  An entry of the configuration list that is not an object is
    not skipped: [cfg.get] fails outside the [try] block, so
    [AttributeError] leaves [run_select_stock] when the loop reaches the
    entry, and the entries after it are not looked at. *)
Theorem non_object_entry_aborts (args : Args) (etf etf' : option EtfInfo)
    (l l1 : list event) (td : Timestamp) (data : Data)
    (pre post : list json) (cfg : json) (r1 : Results) :
  prologue w args etf = (l, Ret (Some (td, data, etf', pre ++ cfg :: post))) ->
  run_selectors w td data etf' pre [] = (l1, Ret r1) ->
  isinstance_dict cfg = false ->
  run_select_stock w args etf = (l ++ l1, Raise AttributeError).
Proof.
  intros Hp Hpre Hd.
  rewrite (run_select_stock_step_raises args etf etf' l l1 [] td data
             pre post cfg r1 AttributeError Hp Hpre
             (selector_step_not_dict td data etf' r1 cfg Hd)).
  now rewrite app_nil_r.
Qed.

Lemma selector_step_caught (td : Timestamp) (data : Data)
    (etf : option EtfInfo) (r : Results) (kv : list (string * json))
    (e : exn) :
  lookup "activate" kv <> Some (JBool false) ->
  instantiate_selector w (JObject kv) = ([], Raise e) ->
  is_Exception e = true ->
  selector_step w td data etf r (JObject kv)
  = ([Log ERROR (MsgSkipConfig (JObject kv) e)], Ret r).
Proof.
  intros Hk Hi He.
  apply (selector_step_construction_fails w td data etf r (JObject kv)
           (match lookup "activate" kv with Some x => x | None => JBool true end)
           [] e); auto.
  destruct (is_False _) eqn:Hf; [|reflexivity].
  exfalso. apply Hk. now apply activate_False.
Qed.

(** X4.  A configuration object with no [class] entry, or with one that
    is false for Python (null, false, 0, the empty string, list or
    object), is skipped with [ValueError] logged, before the [Selector]
    module is looked at; the loop goes on with the entries after it and
    the results as they were. *)
Theorem missing_class_skipped (td : Timestamp) (data : Data)
    (etf : option EtfInfo) (r : Results) (kv : list (string * json))
    (post : list json) :
  lookup "activate" kv <> Some (JBool false) ->
  truthy (match lookup "class" kv with Some c => c | None => JNull end)
  = false ->
  run_selectors w td data etf (JObject kv :: post) r
  = (Log ERROR (MsgSkipConfig (JObject kv) ValueError)
       :: fst (run_selectors w td data etf post r),
     snd (run_selectors w td data etf post r)).
Proof.
  intros Hk Hc.
  apply (run_selectors_cons_Ret td data etf (JObject kv) post r r
           [Log ERROR (MsgSkipConfig (JObject kv) ValueError)]).
  apply selector_step_caught; auto.
  unfold instantiate_selector. simpl py_get.
  change (lift (Ret ?x)) with (ret x). now rewrite bind_ret_l, Hc.
Qed.

(** X5.  A configuration whose [class] names nothing in the [Selector]
    module, or met when the module cannot be imported, is skipped with
    [ImportError] logged and no class called; the loop goes on with the
    entries after it and the results as they were. *)
Theorem unknown_class_skipped (td : Timestamp) (data : Data)
    (etf : option EtfInfo) (r : Results) (kv : list (string * json))
    (post : list json) (name : string) :
  lookup "activate" kv <> Some (JBool false) ->
  lookup "class" kv = Some (JString name) ->
  name <> "" ->
  (import_Selector w = Raise ModuleNotFoundError
   \/ exists module, import_Selector w = Ret module /\ module name = None) ->
  run_selectors w td data etf (JObject kv :: post) r
  = (Log ERROR (MsgSkipConfig (JObject kv) ImportError)
       :: fst (run_selectors w td data etf post r),
     snd (run_selectors w td data etf post r)).
Proof.
  intros Hk Hc Hn Hm.
  apply (run_selectors_cons_Ret td data etf (JObject kv) post r r
           [Log ERROR (MsgSkipConfig (JObject kv) ImportError)]).
  apply selector_step_caught; auto.
  unfold instantiate_selector. simpl py_get. rewrite Hc.
  change (lift (Ret ?x)) with (ret x). rewrite bind_ret_l. simpl truthy.
  destruct (String.eqb_spec name ""); [congruence|]. simpl negb. cbv iota.
  assert (Hl : load_class w (JString name) = Raise ImportError).
  { unfold load_class. destruct Hm as [->|[module [-> Hnone]]].
    - reflexivity.
    - simpl. now rewrite Hnone. }
  now rewrite Hl.
Qed.
End LoopOutcomes.

(** X3 in the small world: an object under [selectors] is iterated by its
    keys, and the first key, a string, stops the run. *)
Lemma non_object_entry_aborts_witness :
  run_select_stock
    (Demo.world Demo.all_files
       (JObject [("selectors", JObject [("class", JString "Good")])]))
    (Demo.args "A" (Some "2024-01-02")) None
  = ([ReadCsv "data/A.csv"] ++ [], Raise AttributeError).
Proof.
  apply (non_object_entry_aborts _ _ None None _ _ (TS 20240102)
           [("A", sort_by_date Demo.frame_A)] [] [] (JString "class") []);
    reflexivity.
Defined.

(** X4 and X5 in the small world. *)
Lemma missing_class_skipped_witness :
  run_selectors (Demo.world Demo.all_files JNull) (TS 5) [] None
    [JObject [("alias", JString "x")]; Demo.spec "Good" "g"] []
  = ([Log ERROR (MsgSkipConfig (JObject [("alias", JString "x")]) ValueError);
      Construct (JString "Good") (JObject []);
      Select (JString "g") (TS 5);
      Log INFO MsgBlank; Log INFO (MsgResultHeader (JString "g"));
      Log INFO (MsgTradeDate (TS 5)); Log INFO (MsgCount 1);
      Log INFO (MsgPicks ["A"])],
     Ret [(JString "g", ["A"])]).
Proof.
  rewrite (missing_class_skipped (Demo.world Demo.all_files JNull) (TS 5) []
             None [] [("alias", JString "x")] [Demo.spec "Good" "g"]).
  - reflexivity.
  - discriminate.
  - reflexivity.
Defined.

Lemma unknown_class_skipped_witness :
  run_selectors (Demo.world Demo.all_files JNull) (TS 5) [] None
    [Demo.spec "Nope" "x"; Demo.spec "Good" "g"] []
  = ([Log ERROR (MsgSkipConfig (Demo.spec "Nope" "x") ImportError);
      Construct (JString "Good") (JObject []);
      Select (JString "g") (TS 5);
      Log INFO MsgBlank; Log INFO (MsgResultHeader (JString "g"));
      Log INFO (MsgTradeDate (TS 5)); Log INFO (MsgCount 1);
      Log INFO (MsgPicks ["A"])],
     Ret [(JString "g", ["A"])]).
Proof.
  etransitivity.
  - apply (unknown_class_skipped (Demo.world Demo.all_files JNull) (TS 5) []
             None []
             [("class", JString "Nope"); ("alias", JString "x")]
             [Demo.spec "Good" "g"] "Nope").
    + discriminate.
    + reflexivity.
    + discriminate.
    + right. exists Demo.selector_module. split; reflexivity.
  - reflexivity.
Defined.

(** ** The alias of a configuration *)

Lemma bind_lift_Ret {A B : Type} (a : A) (f : A -> M B) :
  bind (lift (Ret a)) f = f a.
Proof. apply (bind_ret_l a f). Qed.

Section Alias.
Variable w : World.

(** X6.  The alias under which an executed configuration reports is its
    [alias] entry whenever it has one, whatever the value (a null alias
    is kept, not replaced); without the entry it is the [class] entry,
    which is then a non-empty string. *)
Theorem alias_of_executed (td : Timestamp) (data : Data)
    (kv : list (string * json)) (a : json) (p : Picks) :
  executed w td data (JObject kv) = Some (a, p) ->
  (forall v, lookup "alias" kv = Some v -> a = v)
  /\ (lookup "alias" kv = None ->
      exists name,
        lookup "class" kv = Some (JString name) /\ name <> ""
        /\ a = JString name).
Proof.
  unfold executed. simpl py_get. cbv beta iota.
  match goal with
  | |- context [is_False ?x] => destruct (is_False x)
  end; cbv iota; [discriminate|].
  unfold instantiate_selector. simpl py_get. rewrite bind_lift_Ret.
  remember (match lookup "class" kv with Some c => c | None => JNull end)
    as cls_name eqn:Ec.
  destruct (truthy cls_name) eqn:Ht; simpl negb; cbv iota;
    [|intros H; discriminate H].
  destruct (load_class w cls_name) as [cls|e] eqn:Hl;
    [|intros H; discriminate H].
  rewrite !bind_lift_Ret.
  set (alias := match lookup "alias" kv with Some v => v | None => cls_name end).
  set (params := match lookup "params" kv with
                 | Some v => v
                 | None => JObject []
                 end).
  unfold bind; cbn [fst snd emit lift ret].
  destruct (cls params) as [sel|e]; cbn [fst snd]; [|intros H; discriminate H].
  destruct (sel td data) as [p'|e]; [|intros H; discriminate H].
  intros H. injection H as <- _. subst alias. split.
  - intros v Hv. now rewrite Hv.
  - intros Hn. rewrite Hn.
    unfold load_class, getattr in Hl.
    destruct cls_name as [|b|n|name|items|members];
      try (destruct (import_Selector w) as [m|e0]; [|destruct e0];
           discriminate Hl).
    exists name. split; [|split; [|reflexivity]].
    + destruct (lookup "class" kv); [now subst|discriminate].
    + intros ->. discriminate Ht.
Qed.

Lemma selector_step_unhashable (td : Timestamp) (data : Data)
    (etf : option EtfInfo) (r : Results) (cfg v alias : json)
    (sel : Selector) (lI : list event) (p : Picks) :
  py_get cfg "activate" (JBool true) = Ret v ->
  is_False v = false ->
  instantiate_selector w cfg = (lI, Ret (alias, sel)) ->
  sel td data = Ret p ->
  hashable alias = false ->
  selector_step w td data etf r cfg = (lI ++ [Select alias td], Raise TypeError).
Proof.
  intros Hv Hf Hi Hs Hh.
  rewrite (selector_step_active w _ _ _ _ _ _ Hv Hf).
  rewrite (try_instantiate_Ret w _ _ _ Hi), bind_Ret. cbv beta iota.
  set (rep := report etf alias td). clearbody rep.
  unfold bind; simpl. rewrite Hs; simpl. unfold setitem. rewrite Hh. reflexivity.
Qed.

(** X7.  An alias that is a JSON array or object cannot be a key of the
    result: after the strategy is constructed and its [select] has
    returned, [TypeError] leaves [run_select_stock], with nothing stored
    or reported for the configuration and the entries after it not
    looked at. *)
Theorem unhashable_alias_aborts (args : Args) (etf etf' : option EtfInfo)
    (l l1 lI : list event) (td : Timestamp) (data : Data)
    (pre post : list json) (cfg v alias : json) (r1 : Results)
    (sel : Selector) (p : Picks) :
  prologue w args etf = (l, Ret (Some (td, data, etf', pre ++ cfg :: post))) ->
  run_selectors w td data etf' pre [] = (l1, Ret r1) ->
  py_get cfg "activate" (JBool true) = Ret v ->
  is_False v = false ->
  instantiate_selector w cfg = (lI, Ret (alias, sel)) ->
  sel td data = Ret p ->
  hashable alias = false ->
  run_select_stock w args etf
  = (l ++ l1 ++ lI ++ [Select alias td], Raise TypeError).
Proof.
  intros Hp Hpre Hv Hf Hi Hs Hh.
  apply (run_select_stock_step_raises w args etf etf' l l1 _ td data
           pre post cfg r1 TypeError Hp Hpre).
  now apply (selector_step_unhashable td data etf' r1 cfg v alias sel lI p).
Qed.
End Alias.

(** X6 in the small world: a null alias, and no alias. *)
Lemma alias_of_executed_witness :
  (forall v, Some JNull = Some v -> JNull = v)
  /\ exists name,
       Some (JString "Good") = Some (JString name) /\ name <> ""
       /\ JString "Good" = JString name.
Proof.
  split.
  - apply (proj1 (alias_of_executed (Demo.world Demo.all_files JNull) (TS 5) []
                    [("class", JString "Good"); ("alias", JNull)]
                    JNull ["A"] eq_refl)).
  - apply (proj2 (alias_of_executed (Demo.world Demo.all_files JNull) (TS 5) []
                    [("class", JString "Good")]
                    (JString "Good") ["A"] eq_refl)).
    reflexivity.
Defined.

(** X7 in the small world: the alias is a list. *)
Lemma unhashable_alias_aborts_witness :
  let cfg := JObject [("class", JString "Good");
                      ("alias", JArray [JString "g"])] in
  run_select_stock
    (Demo.world Demo.all_files (JArray [cfg; Demo.spec "Other" "o"]))
    (Demo.args "A" (Some "2024-01-02")) None
  = ([ReadCsv "data/A.csv"] ++ []
     ++ [Construct (JString "Good") (JObject [])]
     ++ [Select (JArray [JString "g"]) (TS 20240102)],
     Raise TypeError).
Proof.
  intros cfg.
  apply (unhashable_alias_aborts
           (Demo.world Demo.all_files (JArray [cfg; Demo.spec "Other" "o"]))
           (Demo.args "A" (Some "2024-01-02")) None None
           [ReadCsv "data/A.csv"] [] _ (TS 20240102)
           [("A", sort_by_date Demo.frame_A)] [] [Demo.spec "Other" "o"]
           cfg (JBool true) (JArray [JString "g"]) []
           (fun _ _ => Ret ["A"]) ["A"]); reflexivity.
Defined.

(** ** The report and the reference table *)

Lemma detail_spec (df : EtfInfo) (picks : Picks) :
  (forall code, In code picks -> exists row, df code = Ret row) ->
  forall acc,
    detail df picks acc
    = (detail_rows df picks, Ret (acc ++ without_row df picks)).
Proof.
  induction picks as [|code rest IH]; intros Hall acc; simpl.
  - now rewrite app_nil_r.
  - destruct (Hall code (or_introl eq_refl)) as [row Hrow].
    unfold detail_rows, without_row in *. simpl. rewrite Hrow, bind_lift_Ret.
    destruct row as [info_parts|].
    + unfold bind; simpl.
      rewrite (IH (fun c Hc => Hall c (or_intror Hc)) acc). reflexivity.
    + rewrite (IH (fun c Hc => Hall c (or_intror Hc)) (acc ++ [code])).
      now rewrite <- app_assoc.
Qed.

Lemma report_table_log (df : EtfInfo) (alias : json) (td : Timestamp)
    (picks : Picks) :
  picks <> [] ->
  (forall code, In code picks -> exists row, df code = Ret row) ->
  report (Some df) alias td picks
  = (report_header alias td picks
     ++ detail_rows df picks
     ++ [Log INFO (MsgDetailMissing (without_row df picks))],
     Ret tt).
Proof.
  intros Hne Hall. unfold report.
  destruct picks as [|c rest]; [congruence|].
  rewrite (detail_spec df (c :: rest) Hall []).
  unfold bind; simpl. now rewrite ?app_nil_r.
Qed.

(** X8.  With a reference table whose lookups all return, the report of
    a strategy with picks logs the four header records, then one line
    for each pick that has a row, in the order of the picks, then one
    record that lists the picks without a row, in that order; it does not
    raise. *)
Theorem report_with_table (df : EtfInfo) (alias : json) (td : Timestamp)
    (picks : Picks) :
  picks <> [] ->
  (forall code, In code picks -> exists row, df code = Ret row) ->
  report (Some df) alias td picks
  = (report_header alias td picks
     ++ detail_rows df picks
     ++ [Log INFO (MsgDetailMissing (without_row df picks))],
     Ret tt).
Proof. exact (report_table_log df alias td picks). Qed.

Lemma report_returns (etf : option EtfInfo) (alias : json) (td : Timestamp)
    (picks : Picks) :
  (forall df code, etf = Some df -> exists row, df code = Ret row) ->
  snd (report etf alias td picks) = Ret tt.
Proof.
  intros Hall. destruct etf as [df|], picks as [|c rest]; try reflexivity.
  rewrite report_table_log; [reflexivity|discriminate|].
  intros code _. now apply Hall.
Qed.

Lemma snd_bind {A B : Type} (m1 m2 : M A) (f1 f2 : A -> M B) :
  snd m1 = snd m2 ->
  (forall a, snd (f1 a) = snd (f2 a)) ->
  snd (bind m1 f1) = snd (bind m2 f2).
Proof.
  intros Hm Hf. unfold bind. rewrite Hm.
  destruct (snd m2) as [a|e]; simpl; auto.
Qed.

Section ReferenceTable.
Variable w : World.

Lemma selector_step_any_table (td : Timestamp) (data : Data)
    (etf : option EtfInfo) (r : Results) (cfg : json) :
  (forall df code, etf = Some df -> exists row, df code = Ret row) ->
  snd (selector_step w td data etf r cfg)
  = snd (selector_step w td data None r cfg).
Proof.
  intros Hall. unfold selector_step.
  apply snd_bind; [reflexivity|]. intros v.
  destruct (is_False v); [reflexivity|].
  apply snd_bind; [reflexivity|]. intros [[alias sel]|]; [|reflexivity].
  apply snd_bind; [reflexivity|]. intros picks.
  apply snd_bind; [reflexivity|]. intros r'.
  apply snd_bind; [|reflexivity].
  rewrite (report_returns etf alias td picks Hall).
  now rewrite (report_returns None alias td picks) by discriminate.
Qed.

(** X9.  A reference table whose lookups all return changes the log
    only: the loop ends with the same mapping, or the same exception,
    as with no table at all. *)
Theorem table_changes_log_only (td : Timestamp) (data : Data)
    (df : EtfInfo) (cfgs : list json) (r : Results) :
  (forall code, exists row, df code = Ret row) ->
  snd (run_selectors w td data (Some df) cfgs r)
  = snd (run_selectors w td data None cfgs r).
Proof.
  intros Hall. revert r. induction cfgs as [|cfg rest IH]; intros r; simpl.
  - reflexivity.
  - apply snd_bind; [|exact IH].
    apply selector_step_any_table. intros df' code H.
    injection H as <-. apply Hall.
Qed.

Lemma detail_raises (df : EtfInfo) (before after : Picks) (code : string)
    (e : exn) (acc : list string) :
  (forall c, In c before -> exists row, df c = Ret row) ->
  df code = Raise e ->
  detail df (before ++ code :: after) acc
  = (detail_rows df before, Raise e).
Proof.
  revert acc. induction before as [|c rest IH]; intros acc Hall He; simpl.
  - now rewrite He.
  - destruct (Hall c (or_introl eq_refl)) as [row Hrow].
    unfold detail_rows in *. simpl. rewrite Hrow, bind_lift_Ret.
    destruct row as [info_parts|].
    + unfold bind; simpl.
      now rewrite (IH acc (fun c' Hc => Hall c' (or_intror Hc)) He).
    + now rewrite (IH (acc ++ [c]) (fun c' Hc => Hall c' (or_intror Hc)) He).
Qed.

(** X10.  When the lookup of a pick in the reference table raises, the
    exception leaves the report, the loop and [run_select_stock]: the
    picks of the strategy, already stored, are not returned, and the
    lines of the picks before it are in the log. *)
Theorem table_lookup_raises (args : Args) (etf : option EtfInfo)
    (df : EtfInfo) (l l1 lI : list event) (td : Timestamp) (data : Data)
    (pre post : list json) (cfg v alias : json) (r1 : Results)
    (sel : Selector) (before after : Picks) (code : string) (e : exn) :
  prologue w args etf
  = (l, Ret (Some (td, data, Some df, pre ++ cfg :: post))) ->
  run_selectors w td data (Some df) pre [] = (l1, Ret r1) ->
  py_get cfg "activate" (JBool true) = Ret v ->
  is_False v = false ->
  instantiate_selector w cfg = (lI, Ret (alias, sel)) ->
  sel td data = Ret (before ++ code :: after) ->
  hashable alias = true ->
  (forall c, In c before -> exists row, df c = Ret row) ->
  df code = Raise e ->
  run_select_stock w args etf
  = (l ++ l1 ++ (lI ++ [Select alias td]
                 ++ report_header alias td (before ++ code :: after)
                 ++ detail_rows df before),
     Raise e).
Proof.
  intros Hp Hpre Hv Hf Hi Hs Hh Hall He.
  apply (run_select_stock_step_raises w args etf (Some df) l l1 _ td data
           pre post cfg r1 e Hp Hpre).
  rewrite (selector_step_active w _ _ _ _ _ _ Hv Hf).
  rewrite (try_instantiate_Ret w _ _ _ Hi), bind_Ret. cbv beta iota.
  assert (Hrep : report (Some df) alias td (before ++ code :: after)
                 = (report_header alias td (before ++ code :: after)
                    ++ detail_rows df before, Raise e)).
  { unfold report. rewrite (detail_raises df before after code e [] Hall He).
    destruct before; reflexivity. }
  set (rep := report (Some df) alias td) in *. clearbody rep.
  unfold bind; simpl. rewrite Hs; simpl. unfold setitem. rewrite Hh; simpl.
  rewrite Hrep. reflexivity.
Qed.
End ReferenceTable.

(** X8 in the small world of a table that knows A only. *)
Lemma report_with_table_witness :
  let df : EtfInfo :=
    fun code => if code =? "A" then Ret (Some ["A (alpha)"]) else Ret None in
  report (Some df) (JString "g") (TS 5) ["B"; "A"; "C"]
  = ([Log INFO MsgBlank; Log INFO (MsgResultHeader (JString "g"));
      Log INFO (MsgTradeDate (TS 5)); Log INFO (MsgCount 3)]
     ++ [Log INFO (MsgDetailRow ["A (alpha)"])]
     ++ [Log INFO (MsgDetailMissing ["B"; "C"])],
     Ret tt).
Proof.
  intros df.
  apply (report_with_table df (JString "g") (TS 5) ["B"; "A"; "C"]).
  - discriminate.
  - intros code _. unfold df. destruct (code =? "A"); eauto.
Defined.

(** X9 in the small world. *)
Lemma table_changes_log_only_witness :
  let df : EtfInfo :=
    fun code => if code =? "A" then Ret (Some ["A (alpha)"]) else Ret None in
  snd (run_selectors (Demo.world Demo.all_files JNull) (TS 5) [] (Some df)
         [Demo.spec "Good" "g"; Demo.spec "Other" "o"] [])
  = Ret [(JString "g", ["A"]); (JString "o", ["B"])].
Proof.
  intros df.
  rewrite (table_changes_log_only (Demo.world Demo.all_files JNull) (TS 5) []
             df [Demo.spec "Good" "g"; Demo.spec "Other" "o"] []).
  - reflexivity.
  - intros code. unfold df. destruct (code =? "A"); eauto.
Defined.

(** X10 in the small world: the table has no column to look codes up
    in. *)
Lemma table_lookup_raises_witness :
  let df : EtfInfo := fun _ => Raise KeyError in
  run_select_stock
    (Demo.world Demo.all_files (JArray [Demo.spec "Good" "g"]))
    (Demo.args "A" (Some "2024-01-02")) (Some df)
  = ([ReadCsv "data/A.csv"] ++ []
     ++ ([Construct (JString "Good") (JObject [])]
         ++ [Select (JString "g") (TS 20240102)]
         ++ report_header (JString "g") (TS 20240102) ["A"]
         ++ []),
     Raise KeyError).
Proof.
  intros df.
  apply (table_lookup_raises
           (Demo.world Demo.all_files (JArray [Demo.spec "Good" "g"]))
           (Demo.args "A" (Some "2024-01-02")) (Some df) df
           [ReadCsv "data/A.csv"] [] _ (TS 20240102)
           [("A", sort_by_date Demo.frame_A)] [] []
           (Demo.spec "Good" "g") (JBool true) (JString "g") []
           (fun _ _ => Ret ["A"]) [] [] "A" KeyError);
    try reflexivity.
  intros c [].
Defined.

(** ** What the returned mapping holds *)

Lemma get_set_hit {V : Type} (k a : json) (v : V) (d : list (json * V)) :
  key_eqb k a = true ->
  PyDict.get key_eqb a (PyDict.set key_eqb k v d) = Some v.
Proof.
  intros Hka. induction d as [|[k' v'] d IH]; simpl.
  - now rewrite Hka.
  - destruct (key_eqb k' k) eqn:E; simpl;
      rewrite <- (key_eqb_congr k a k' Hka), E; [reflexivity|exact IH].
Qed.

Lemma get_set_cases {V : Type} (k a : json) (v : V) (d : list (json * V)) :
  PyDict.get key_eqb a (PyDict.set key_eqb k v d)
  = if key_eqb k a then Some v else PyDict.get key_eqb a d.
Proof.
  destruct (key_eqb k a) eqn:E.
  - now apply get_set_hit.
  - apply PyDictFacts.get_set_other; [|exact E].
    intros k'. apply key_eqb_euclid.
Qed.

Section Mapping.
Variable w : World.

Lemma run_selectors_passed_over (td : Timestamp) (data : Data)
    (etf : option EtfInfo) (cfgs : list json) :
  Forall (passed_over w) cfgs ->
  forall r, snd (run_selectors w td data etf cfgs r) = Ret r.
Proof.
  induction 1 as [|cfg rest Hcfg _ IH]; intros r; [reflexivity|].
  destruct Hcfg as [kv [-> Hwhy]].
  assert (Hstep : exists ls,
            selector_step w td data etf r (JObject kv) = (ls, Ret r)).
  { destruct (is_False (match lookup "activate" kv with
                        | Some x => x
                        | None => JBool true
                        end)) eqn:Hf.
    - exists []. apply selector_step_skipped. simpl.
      apply activate_False in Hf. now rewrite Hf.
    - destruct Hwhy as [Hk|[lI [e [Hi He]]]].
      + apply activate_False in Hk. congruence.
      + eexists.
        apply (selector_step_construction_fails w td data etf r (JObject kv)
                 _ lI e eq_refl Hf Hi He). }
  destruct Hstep as [ls Hstep].
  rewrite (run_selectors_cons_Ret w td data etf _ rest r r ls Hstep).
  apply IH.
Qed.

(** X11.  When every configuration is deactivated or fails to be
    constructed, [run_select_stock] still returns a mapping, the empty
    one, and not the failure value [None]. *)
Theorem nothing_executed_empty_mapping (args : Args)
    (etf etf' : option EtfInfo) (l : list event) (td : Timestamp)
    (data : Data) (cfgs : list json) :
  prologue w args etf = (l, Ret (Some (td, data, etf', cfgs))) ->
  Forall (passed_over w) cfgs ->
  snd (run_select_stock w args etf) = Ret (Some []).
Proof.
  intros Hp Hall. rewrite (run_select_stock_loop _ _ _ _ _ _ _ _ Hp).
  cbn [snd]. now rewrite (run_selectors_passed_over td data etf' cfgs Hall []).
Qed.

Lemma run_selectors_sound (td : Timestamp) (data : Data)
    (etf : option EtfInfo) (cfgs : list json) :
  forall (r results : Results) (l : list event) (a : json) (p : Picks),
    run_selectors w td data etf cfgs r = (l, Ret results) ->
    PyDict.get key_eqb a results = Some p ->
    PyDict.get key_eqb a r = Some p
    \/ exists cfg a',
         In cfg cfgs /\ executed w td data cfg = Some (a', p)
         /\ key_eqb a' a = true.
Proof.
  induction cfgs as [|cfg rest IH]; intros r results l a p Hrun Hget.
  - simpl in Hrun. injection Hrun as _ <-. auto.
  - simpl in Hrun.
    destruct (selector_step w td data etf r cfg) as [l1 [r'|e]] eqn:Hstep;
      [|discriminate].
    rewrite bind_Ret in Hrun.
    destruct (run_selectors w td data etf rest r') as [l2 res] eqn:Hrest.
    simpl in Hrun. injection Hrun as _ ->.
    destruct (IH r' results l2 a p Hrest Hget) as [Hr'|[c [a' [Hin H]]]].
    + pose proof (selector_step_Ret w _ _ _ _ _ _ _ Hstep) as Hs.
      destruct (executed w td data cfg) as [[a' p']|] eqn:Hex.
      * destruct Hs as [_ ->]. rewrite get_set_cases in Hr'.
        destruct (key_eqb a' a) eqn:E.
        -- injection Hr' as <-. right. exists cfg, a'. simpl. auto.
        -- auto.
      * subst r'. auto.
    + right. exists c, a'. simpl. tauto.
Qed.

Lemma run_selectors_grows (td : Timestamp) (data : Data)
    (etf : option EtfInfo) (cfgs : list json) :
  forall (r results : Results) (l : list event) (a : json) (p : Picks),
    run_selectors w td data etf cfgs r = (l, Ret results) ->
    PyDict.get key_eqb a r = Some p ->
    exists p', PyDict.get key_eqb a results = Some p'.
Proof.
  induction cfgs as [|cfg rest IH]; intros r results l a p Hrun Hget.
  - simpl in Hrun. injection Hrun as _ <-. eauto.
  - simpl in Hrun.
    destruct (selector_step w td data etf r cfg) as [l1 [r'|e]] eqn:Hstep;
      [|discriminate].
    rewrite bind_Ret in Hrun.
    destruct (run_selectors w td data etf rest r') as [l2 res] eqn:Hrest.
    simpl in Hrun. injection Hrun as _ ->.
    pose proof (selector_step_Ret w _ _ _ _ _ _ _ Hstep) as Hs.
    destruct (executed w td data cfg) as [[a' p']|].
    + destruct Hs as [_ ->].
      apply (IH _ results l2 a (if key_eqb a' a then p' else p) Hrest).
      rewrite get_set_cases. now destruct (key_eqb a' a).
    + subst r'. now apply (IH r results l2 a p Hrest).
Qed.

Lemma run_selectors_complete (td : Timestamp) (data : Data)
    (etf : option EtfInfo) (cfgs : list json) :
  forall (r results : Results) (l : list event) (cfg a : json) (p : Picks),
    run_selectors w td data etf cfgs r = (l, Ret results) ->
    In cfg cfgs ->
    executed w td data cfg = Some (a, p) ->
    exists p', PyDict.get key_eqb a results = Some p'.
Proof.
  induction cfgs as [|c rest IH]; intros r results l cfg a p Hrun Hin Hex;
    [destruct Hin|].
  simpl in Hrun.
  destruct (selector_step w td data etf r c) as [l1 [r'|e]] eqn:Hstep;
    [|discriminate].
  rewrite bind_Ret in Hrun.
  destruct (run_selectors w td data etf rest r') as [l2 res] eqn:Hrest.
  simpl in Hrun. injection Hrun as _ ->.
  destruct Hin as [->|Hin].
  - pose proof (selector_step_Ret w _ _ _ _ _ _ _ Hstep) as Hs.
    rewrite Hex in Hs. destruct Hs as [Hh ->].
    apply (run_selectors_grows td data etf rest _ results l2 a p Hrest).
    apply PyDictFacts.get_set_same. now apply key_eqb_refl.
  - now apply (IH r' results l2 cfg a p Hrest Hin Hex).
Qed.

(** X12.  The mapping that [run_select_stock] returns holds the aliases
    of the executed configurations and nothing else: the picks found
    under a key are the picks of an executed configuration whose alias
    is that key, and the alias of every executed configuration is a key
    of the mapping. *)
Theorem mapping_of_executed (args : Args) (etf etf' : option EtfInfo)
    (l0 l : list event) (td : Timestamp) (data : Data) (cfgs : list json)
    (results : Results) :
  prologue w args etf = (l0, Ret (Some (td, data, etf', cfgs))) ->
  run_select_stock w args etf = (l, Ret (Some results)) ->
  (forall a p,
     PyDict.get key_eqb a results = Some p ->
     exists cfg a',
       In cfg cfgs /\ executed w td data cfg = Some (a', p)
       /\ key_eqb a' a = true)
  /\ (forall cfg a p,
        In cfg cfgs -> executed w td data cfg = Some (a, p) ->
        exists p', PyDict.get key_eqb a results = Some p').
Proof.
  intros Hp Hrun.
  rewrite (run_select_stock_loop _ _ _ _ _ _ _ _ Hp) in Hrun.
  destruct (run_selectors w td data etf' cfgs []) as [l1 [res|e]] eqn:Hloop;
    simpl in Hrun; [|discriminate].
  injection Hrun as _ <-. split.
  - intros a p Hget.
    destruct (run_selectors_sound td data etf' cfgs [] res l1 a p Hloop Hget)
      as [H|H]; [discriminate H|exact H].
  - intros cfg a p Hin Hex.
    apply (run_selectors_complete td data etf' cfgs [] res l1 cfg a p
             Hloop Hin Hex).
Qed.
End Mapping.

(** X11 in the small world: one configuration is deactivated, one names
    no class, one has a constructor that raises. *)
Lemma nothing_executed_empty_mapping_witness :
  snd (run_select_stock
         (Demo.world Demo.all_files
            (JArray [Demo.deactivated "Good" "g"; Demo.spec "Nope" "n";
                     Demo.spec "BadInit" "b"]))
         (Demo.args "A" (Some "2024-01-02")) None)
  = Ret (Some []).
Proof.
  apply (nothing_executed_empty_mapping
           (Demo.world Demo.all_files
              (JArray [Demo.deactivated "Good" "g"; Demo.spec "Nope" "n";
                       Demo.spec "BadInit" "b"]))
           (Demo.args "A" (Some "2024-01-02")) None None
           [ReadCsv "data/A.csv"] (TS 20240102)
           [("A", sort_by_date Demo.frame_A)]
           [Demo.deactivated "Good" "g"; Demo.spec "Nope" "n";
            Demo.spec "BadInit" "b"]).
  - reflexivity.
  - repeat constructor.
    + eexists. split; [reflexivity|]. left. reflexivity.
    + eexists. split; [reflexivity|]. right.
      exists [], ImportError. split; reflexivity.
    + eexists. split; [reflexivity|]. right.
      exists [Construct (JString "BadInit") (JObject [])], TypeError.
      split; reflexivity.
Defined.

(** X12 in the small world: the key [1] is also the key [true]. *)
Lemma mapping_of_executed_witness :
  let one := JObject [("class", JString "Good"); ("alias", JInt 1)] in
  let yes := JObject [("class", JString "Other"); ("alias", JBool true)] in
  let w := Demo.world Demo.all_files (JArray [one; yes]) in
  let results := [(JInt 1, ["B"])] in
  run_select_stock w (Demo.args "A" (Some "2024-01-02")) None
  = (fst (run_select_stock w (Demo.args "A" (Some "2024-01-02")) None),
     Ret (Some results))
  /\ exists p', PyDict.get key_eqb (JBool true) results = Some p'.
Proof.
  intros one yes w0 results. split; [reflexivity|].
  apply (proj2 (mapping_of_executed w0 (Demo.args "A" (Some "2024-01-02"))
                  None None [ReadCsv "data/A.csv"] _ (TS 20240102)
                  [("A", sort_by_date Demo.frame_A)] [one; yes] results
                  eq_refl eq_refl) yes (JBool true) ["B"]).
  - simpl. auto.
  - reflexivity.
Defined.

(** * Properties of [main.py] *)

(** ** The exit of [main] *)



(** An exception outside [Exception] that the fetch stage raises passes
    the handlers of [run_fetch] and of [main] and leaves [main] as it
    is. *)
Example base_exception_leaves_main :
  let w := Demo.project_world ("project_config.json" :: Demo.all_files)
             (Demo.project []) (JArray [Demo.spec "Good" "g"]) in
  snd (main w (Demo.host (Raise (OtherBaseException "GeneratorExit")))
         "project_config.json" true false)
  = Raise (OtherBaseException "GeneratorExit").
Proof. reflexivity. Qed.

(** ** A project configuration without its [workflow] section *)

(** X14.  [run] reads [config["workflow"]] before it looks at the
    flags, and a configuration file is used as it is, without the
    defaults: with a project configuration that is an object with no
    [workflow] entry, every run, also with [--fetch-only] or
    [--select-only], logs [KeyError] and exits with status 1 before any
    stage starts. *)
Theorem missing_workflow_section (w : World) (h : Host) (config : string)
    (fetch_only select_only : bool) (kv : list (string * json)) :
  fetch_only && select_only = false ->
  path_exists w config = true ->
  json_load w config = Ret (JObject kv) ->
  lookup "workflow" kv = None ->
  main w h config fetch_only select_only
  = (run_header config ++ [MainLog ERROR (MainError KeyError)],
     Raise (SystemExit 1)).
Proof.
  intros Hflags Hp Hj Hk. unfold main. rewrite Hflags.
  unfold ConfigManager._load_config, StockTradeWorkflow.run.
  rewrite Hp. simpl negb. cbv iota.
  unfold wbind, wtry, wlift, wlog, wemit, wput, wret.
  rewrite Hj. cbn [is_Exception py_getitem]. rewrite Hk. reflexivity.
Qed.

Lemma missing_workflow_section_witness :
  main (Demo.world ("project_config.json" :: Demo.all_files)
          (JObject [("select", JObject [("tickers", JString "A")])]))
    (Demo.host (Raise OSError)) "project_config.json" false true
  = (run_header "project_config.json" ++ [MainLog ERROR (MainError KeyError)],
     Raise (SystemExit 1)).
Proof.
  apply (missing_workflow_section _ _ _ _ _
           [("select", JObject [("tickers", JString "A")])]); reflexivity.
Defined.

(** ** A run with [--select-only] *)

Lemma typed_args_etf_info (sa : SelectArgs) (args : Args) :
  typed_args sa = Some args -> etf_info args = sa_etf_info sa.
Proof.
  unfold typed_args.
  destruct (sa_data_dir sa), (sa_config sa), (sa_tickers sa);
    try discriminate.
  destruct (sa_date sa); try discriminate;
    intros H; injection H as <-; reflexivity.
Qed.

Lemma get_select_args_etf_info (config : json) (sa : SelectArgs) :
  ConfigManager.get_select_args config = Ret sa -> sa_etf_info sa = None.
Proof.
  unfold ConfigManager.get_select_args, and_then.
  repeat match goal with
         | |- context [match ?r with Ret _ => _ | Raise _ => _ end] =>
             destruct r; try discriminate
         end.
  intros H. injection H as <-. reflexivity.
Qed.

(** X15.  [python main.py --select-only] screens with the arguments of
    the [select] section of the project configuration, with no reference
    file and no reference table, whatever is on disk.  It returns when
    [run_select_stock] returns a mapping.  It exits with status 1, after
    logging the failure of the stage and of the workflow, when
    [run_select_stock] returns [None] or raises an exception of class
    [Exception]; the [SystemExit] of [load_config] passes through as it
    is, and an interrupt gives status 0. *)
Theorem select_only_main (w : World) (h : Host) (config_path : string)
    (config workflow_config : json) (lc : list main_event)
    (sa : SelectArgs) (args : Args) :
  ConfigManager._load_config w config_path new_workflow
  = (lc, Ret config, new_workflow) ->
  py_getitem config "workflow" = Ret workflow_config ->
  ConfigManager.get_select_args config = Ret sa ->
  typed_args sa = Some args ->
  etf_info args = None
  /\ main w h config_path false true
     = (lc ++ run_header config_path ++ stage_header MainSelectStart
           ++ map Screening (fst (run_select_stock w args None))
           ++ fst (select_only_ending (snd (run_select_stock w args None))),
        snd (select_only_ending (snd (run_select_stock w args None)))).
Proof.
  intros Hload Hwf Hsa Hty. split.
  { rewrite (typed_args_etf_info sa args Hty).
    apply (get_select_args_etf_info config sa Hsa). }
  unfold main. cbn [andb].
  unfold StockTradeWorkflow.run, StockTradeWorkflow.run_select,
    StockTradeWorkflow.call_run_select_stock.
  set (scr := run_select_stock w args None).
  unfold wbind, wtry, wlift, wlog, wemit, wput, wget, wret, wraise, screening.
  rewrite Hload, Hwf. cbn [truthy fst snd negb]. rewrite Hsa.
  cbn [wf_etf_info_path wf_etf_info_df new_workflow]. rewrite Hty. fold scr.
  destruct scr as [ls [[res|]|e]]; [| |destruct e];
    cbn [fst snd is_Exception select_only_ending negb app run_header
         stage_header];
    rewrite ?app_nil_r, <- ?app_assoc; reflexivity.
Qed.

(** X15 in the small world: the strategy raises in [select], and the
    process exits with status 1. *)
Lemma select_only_main_witness :
  let w := Demo.project_world ("project_config.json" :: Demo.all_files)
             (Demo.project []) (JArray [Demo.spec "Boom" "b"]) in
  main w (Demo.host (Raise OSError)) "project_config.json" false true
  = ([] ++ run_header "project_config.json" ++ stage_header MainSelectStart
     ++ map Screening
          [ReadCsv "data/A.csv"; Log INFO (MsgDefaultDate (TS 3));
           Construct (JString "Boom") (JObject []);
           Select (JString "b") (TS 3)]
     ++ [MainLog ERROR (MainSelectError (OtherException "RuntimeError"));
         MainLog ERROR MainWorkflowFailed],
     Raise (SystemExit 1)).
Proof.
  intros w0.
  apply (proj2 (select_only_main w0 (Demo.host (Raise OSError))
                  "project_config.json" (Demo.project []) (JObject []) []
                  {| sa_data_dir := JString "data";
                     sa_config := JString "configs.json";
                     sa_date := JNull; sa_tickers := JString "A";
                     sa_etf_info := None |}
                  (Demo.args "A" None) eq_refl eq_refl eq_refl eq_refl)).
Defined.

(** ** A fetch stage that fails *)

(** X16.  When the fetch stage runs (with [--fetch-only], or with no flag
    and a true [auto_fetch]) and [run_fetch_kline] returns no table or
    raises an exception of class [Exception], the failure is logged, the
    screening never starts, whatever [auto_select] says, and the process
    exits with status 1. *)
Theorem failed_fetch_main (w : World) (h : Host) (config_path : string)
    (config : json) (wkv : list (string * json)) (lc : list main_event)
    (fetch_only : bool) (fa : FetchArgs) :
  ConfigManager._load_config w config_path new_workflow
  = (lc, Ret config, new_workflow) ->
  py_getitem config "workflow" = Ret (JObject wkv) ->
  (fetch_only = true
   \/ truthy (match lookup "auto_fetch" wkv with
              | Some v => v
              | None => JBool true
              end) = true) ->
  ConfigManager.get_fetch_args config = Ret fa ->
  (forall out_dir,
     run_fetch_kline h fa = Ret (None, out_dir) ->
     main w h config_path fetch_only false
     = (lc ++ run_header config_path ++ stage_header MainFetchStart
           ++ [FetchKline fa; MainLog ERROR MainFetchFailed;
               MainLog ERROR MainWorkflowFailed],
        Raise (SystemExit 1)))
  /\ (forall e,
        run_fetch_kline h fa = Raise e ->
        is_Exception e = true ->
        main w h config_path fetch_only false
        = (lc ++ run_header config_path ++ stage_header MainFetchStart
              ++ [FetchKline fa; MainLog ERROR (MainFetchError e);
                  MainLog ERROR MainWorkflowFailed],
           Raise (SystemExit 1))).
Proof.
  intros Hload Hwf Hon Hfa.
  assert (Hshould :
    forall (k : json * json -> W bool),
      (should <- (if fetch_only then wret (JBool true, JBool false)
                  else if false then wret (JBool false, JBool true)
                  else
                    should_fetch <-
                      wlift (py_get (JObject wkv) "auto_fetch" (JBool true)) ;;
                    should_select <-
                      wlift (py_get (JObject wkv) "auto_select" (JBool true)) ;;
                    wret (should_fetch, should_select)) ;;
       k should)%wf new_workflow
      = k (if fetch_only then (JBool true, JBool false)
           else (match lookup "auto_fetch" wkv with
                 | Some v => v
                 | None => JBool true
                 end,
                 match lookup "auto_select" wkv with
                 | Some v => v
                 | None => JBool true
                 end)) new_workflow).
  { intros k. unfold wbind, wret, wlift. destruct fetch_only; simpl;
      now destruct (k _ new_workflow) as [[l r] s]. }
  assert (Htruthy :
    truthy (fst (if fetch_only then (JBool true, JBool false)
                 else (match lookup "auto_fetch" wkv with
                       | Some v => v
                       | None => JBool true
                       end,
                       match lookup "auto_select" wkv with
                       | Some v => v
                       | None => JBool true
                       end))) = true).
  { destruct fetch_only; [reflexivity|].
    destruct Hon as [H|H]; [discriminate H|exact H]. }
  split.
  - intros out_dir Hf. unfold main. rewrite andb_false_r.
    unfold StockTradeWorkflow.run.
    unfold wbind at 1. rewrite Hload.
    unfold wbind at 1. unfold wput at 1.
    unfold wbind at 1. unfold wbind at 1. unfold wlog at 1, wemit at 1.
    unfold wbind at 1. unfold wlog at 1, wemit at 1.
    unfold wbind at 1. unfold wlift at 1. rewrite Hwf.
    rewrite Hshould, Htruthy.
    unfold StockTradeWorkflow.run_fetch.
    unfold wbind, wtry, wlift, wlog, wemit, wput, wget, wret, wraise.
    rewrite Hfa, Hf. cbn [fst snd negb app run_header stage_header].
    rewrite ?app_nil_r, <- ?app_assoc. reflexivity.
  - intros e Hf He. unfold main. rewrite andb_false_r.
    unfold StockTradeWorkflow.run.
    unfold wbind at 1. rewrite Hload.
    unfold wbind at 1. unfold wput at 1.
    unfold wbind at 1. unfold wbind at 1. unfold wlog at 1, wemit at 1.
    unfold wbind at 1. unfold wlog at 1, wemit at 1.
    unfold wbind at 1. unfold wlift at 1. rewrite Hwf.
    rewrite Hshould, Htruthy.
    unfold StockTradeWorkflow.run_fetch.
    unfold wbind, wtry, wlift, wlog, wemit, wput, wget, wret, wraise.
    rewrite Hfa, Hf, He. cbn [fst snd negb app run_header stage_header].
    rewrite ?app_nil_r, <- ?app_assoc. reflexivity.
Qed.

(** X16 in the small world: the fetch returns no table. *)
Lemma failed_fetch_main_witness :
  let w := Demo.project_world ("project_config.json" :: Demo.all_files)
             (Demo.project [("auto_select", JBool true)])
             (JArray [Demo.spec "Good" "g"]) in
  let fa := {| datasource := JString "mootdx"; frequency := JInt 4;
               exclude_gem := JBool true; min_mktcap := JInt 500000000;
               max_mktcap := JNull; start := JString "20250401";
               end_ := JString "today"; out := JString "./data/ETF";
               workers := JInt 10 |} in
  main w (Demo.host (Ret (None, "data/ETF"))) "project_config.json" false false
  = ([] ++ run_header "project_config.json" ++ stage_header MainFetchStart
     ++ [FetchKline fa; MainLog ERROR MainFetchFailed;
         MainLog ERROR MainWorkflowFailed],
     Raise (SystemExit 1)).
Proof.
  intros w0 fa.
  apply (proj1 (failed_fetch_main w0 (Demo.host (Ret (None, "data/ETF")))
                  "project_config.json"
                  (Demo.project [("auto_select", JBool true)])
                  [("auto_select", JBool true)] [] false fa
                  eq_refl eq_refl (or_intror eq_refl) eq_refl)
           "data/ETF" eq_refl).
Defined.

(** ** From the fetch stage to the screening *)

(** X17.  In a run of both stages where [run_fetch_kline] returns a
    table and the table is saved ([auto_fetch], [auto_select] and
    [save_etf_info] true or absent), [run_select_stock] is called with that
    table, and with the path of the saved file when the file is there;
    the run then ends as the screening ends. *)
Theorem fetched_table_reaches_screening (w : World) (h : Host)
    (config_path : string) (config : json) (wkv : list (string * json))
    (lc : list main_event) (fa : FetchArgs) (df : EtfInfo) (out_dir : string)
    (sa : SelectArgs) (args : Args) :
  let etf_info_path := joinpath w (path_parent h out_dir) "etf_info.csv" in
  ConfigManager._load_config w config_path new_workflow
  = (lc, Ret config, new_workflow) ->
  py_getitem config "workflow" = Ret (JObject wkv) ->
  truthy (match lookup "auto_fetch" wkv with
          | Some v => v
          | None => JBool true
          end) = true ->
  truthy (match lookup "auto_select" wkv with
          | Some v => v
          | None => JBool true
          end) = true ->
  truthy (match lookup "save_etf_info" wkv with
          | Some v => v
          | None => JBool true
          end) = true ->
  ConfigManager.get_fetch_args config = Ret fa ->
  run_fetch_kline h fa = Ret (Some df, out_dir) ->
  to_csv h df etf_info_path = Ret tt ->
  ConfigManager.get_select_args config = Ret sa ->
  typed_args {| sa_data_dir := sa_data_dir sa; sa_config := sa_config sa;
                sa_date := sa_date sa; sa_tickers := sa_tickers sa;
                sa_etf_info := if path_exists w etf_info_path
                               then Some etf_info_path else None |}
  = Some args ->
  main w h config_path false false
  = (lc ++ run_header config_path ++ stage_header MainFetchStart
        ++ [FetchKline fa; ToCsv etf_info_path;
            MainLog INFO (MainEtfSaved etf_info_path);
            MainLog INFO MainFetchDone]
        ++ stage_header MainSelectStart
        ++ map Screening (fst (run_select_stock w args (Some df)))
        ++ fst (select_only_ending (snd (run_select_stock w args (Some df)))),
     snd (select_only_ending (snd (run_select_stock w args (Some df))))).
Proof.
  intros etf_info_path Hload Hwf Haf Has Hsave Hfa Hf Hcsv Hsa Hty.
  unfold main. cbn [andb].
  unfold StockTradeWorkflow.run, StockTradeWorkflow.run_fetch,
    StockTradeWorkflow.run_select, StockTradeWorkflow.call_run_select_stock.
  set (scr := run_select_stock w args (Some df)).
  unfold wbind, wtry, wlift, wlog, wemit, wput, wget, wret, wraise, screening.
  rewrite Hload, Hwf. cbn [py_get fst snd]. rewrite Haf.
  cbn [negb]. rewrite Hfa, Hf. cbn [fst snd]. rewrite Hsave.
  fold etf_info_path. rewrite Hcsv. cbn [fst snd negb]. rewrite Has, Hsa.
  cbn [wf_etf_info_path wf_etf_info_df].
  assert (Hty' :
    typed_args (if path_exists w etf_info_path
                then {| sa_data_dir := sa_data_dir sa;
                        sa_config := sa_config sa;
                        sa_date := sa_date sa;
                        sa_tickers := sa_tickers sa;
                        sa_etf_info := Some etf_info_path |}
                else sa) = Some args).
  { rewrite <- Hty.
    pose proof (get_select_args_etf_info config sa Hsa) as Hnone.
    destruct (path_exists w etf_info_path); [reflexivity|].
    destruct sa as [a b c d e]. simpl in Hnone. subst e. reflexivity. }
  rewrite Hty'. fold scr.
  destruct scr as [ls [[res|]|e]]; [| |destruct e];
    cbn [fst snd is_Exception select_only_ending negb app run_header
         stage_header];
    rewrite ?app_nil_r, <- ?app_assoc; reflexivity.
Qed.

(** X17 in the small world: the fetched table knows no code, and the
    report says so. *)
Lemma fetched_table_reaches_screening_witness :
  let w := Demo.project_world
             ("project_config.json" :: "data/etf_info.csv" :: Demo.all_files)
             (Demo.project []) (JArray [Demo.spec "Good" "g"]) in
  let df : EtfInfo := fun _ => Ret None in
  let args := {| data_dir := "data"; config := "configs.json"; date := None;
                 tickers := "A"; etf_info := Some "data/etf_info.csv" |} in
  snd (main w (Demo.host (Ret (Some df, "data/ETF"))) "project_config.json"
         false false)
  = snd (select_only_ending (snd (run_select_stock w args (Some df))))
  /\ run_select_stock w args (Some df)
     = ([ReadCsv "data/A.csv"; Log INFO (MsgDefaultDate (TS 3));
         Construct (JString "Good") (JObject []);
         Select (JString "g") (TS 3)]
        ++ report_header (JString "g") (TS 3) ["A"]
        ++ [Log INFO (MsgDetailMissing ["A"])],
        Ret (Some [(JString "g", ["A"])])).
Proof.
  intros w0 df args. split; [|reflexivity].
  rewrite (fetched_table_reaches_screening w0
             (Demo.host (Ret (Some df, "data/ETF"))) "project_config.json"
             (Demo.project []) [] []
             {| datasource := JString "mootdx"; frequency := JInt 4;
                exclude_gem := JBool true; min_mktcap := JInt 500000000;
                max_mktcap := JNull; start := JString "20250401";
                end_ := JString "today"; out := JString "./data/ETF";
                workers := JInt 10 |}
             df "data/ETF"
             {| sa_data_dir := JString "data";
                sa_config := JString "configs.json";
                sa_date := JNull; sa_tickers := JString "A";
                sa_etf_info := None |}
             args eq_refl eq_refl eq_refl eq_refl eq_refl eq_refl eq_refl
             eq_refl eq_refl eq_refl).
  reflexivity.
Defined.

(** * Two more properties of [select_stock.py] *)

(** ** Looking a code up in the loaded mapping *)

Lemma get_set_string {V : Type} (k c : string) (v : V) (d : list (string * V)) :
  PyDict.get String.eqb c (PyDict.set String.eqb k v d)
  = if String.eqb k c then Some v else PyDict.get String.eqb c d.
Proof.
  induction d as [|[k' v'] d IH]; simpl.
  - reflexivity.
  - destruct (String.eqb_spec k' k) as [->|Hne]; simpl.
    + now destruct (String.eqb k c).
    + rewrite IH. destruct (String.eqb_spec k' c) as [->|Hne'];
        [|reflexivity].
      destruct (String.eqb_spec k c); congruence.
Qed.

Section Lookup.
Variable w : World.

(** What the mapping holds under [c] when the codes [codes] have been
    loaded over [frames0]. *)
Lemma load_frames_lookup (dir : string) (codes : list string) :
  (forall c, In c codes -> path_exists w (csv_path w dir c) = true ->
             exists df, read_csv w (csv_path w dir c) = Ret df) ->
  forall frames0, exists l frames,
    load_frames w dir codes frames0 = (l, Ret frames)
    /\ forall c,
         PyDict.get String.eqb c frames
         = if existsb (String.eqb c) codes
              && path_exists w (csv_path w dir c)
           then match read_csv w (csv_path w dir c) with
                | Ret raw => Some (sort_values w raw)
                | Raise _ => None
                end
           else PyDict.get String.eqb c frames0.
Proof.
  induction codes as [|code rest IH]; intros Hread frames0.
  - exists [], frames0. split; reflexivity.
  - simpl load_frames. fold (csv_path w dir code).
    destruct (path_exists w (csv_path w dir code)) eqn:E; simpl negb; cbv iota.
    + destruct (Hread code (or_introl eq_refl) E) as [df Hdf].
      destruct (IH (fun c Hc => Hread c (or_intror Hc))
                  (PyDict.set String.eqb code (sort_values w df) frames0))
        as [l [frames [Hrun Hget]]].
      exists (ReadCsv (csv_path w dir code) :: l), frames. split.
      * rewrite Hdf. unfold bind; simpl. now rewrite Hrun.
      * intros c. rewrite Hget, get_set_string. simpl existsb.
        destruct (String.eqb_spec c code) as [->|Hne].
        -- rewrite String.eqb_refl, E, Hdf. simpl.
           now destruct (existsb (String.eqb code) rest).
        -- destruct (String.eqb_spec code c); [congruence|reflexivity].
    + destruct (IH (fun c Hc => Hread c (or_intror Hc)) frames0)
        as [l [frames [Hrun Hget]]].
      exists (Log WARNING (MsgCsvMissing (path_name w (csv_path w dir code)))
                :: l), frames. split.
      * unfold bind; simpl. now rewrite Hrun.
      * intros c. rewrite Hget. simpl existsb.
        destruct (String.eqb_spec c code) as [->|Hne]; [|reflexivity].
        rewrite E. simpl. now rewrite andb_false_r.
Qed.

(** X18.  Provided each requested file that is present can be read, the
    mapping that [load_data] returns gives, for a requested code with a
    file, what [sort_values] made of the file, also when the code is
    requested more than once, and gives nothing for any other code. *)
Theorem load_data_lookup (dir : string) (codes : list string) :
  (forall c, In c codes -> path_exists w (csv_path w dir c) = true ->
             exists df, read_csv w (csv_path w dir c) = Ret df) ->
  exists l frames,
    load_data w dir codes = (l, Ret frames)
    /\ (forall c raw,
          In c codes ->
          path_exists w (csv_path w dir c) = true ->
          read_csv w (csv_path w dir c) = Ret raw ->
          PyDict.get String.eqb c frames = Some (sort_values w raw))
    /\ (forall c,
          ~ In c codes \/ path_exists w (csv_path w dir c) = false ->
          PyDict.get String.eqb c frames = None).
Proof.
  intros Hread.
  destruct (load_frames_lookup dir codes Hread []) as [l [frames [Hrun Hget]]].
  exists l, frames. split; [exact Hrun|]. split.
  - intros c raw Hin Hp Hraw. rewrite Hget, Hp, Hraw, andb_true_r.
    replace (existsb (String.eqb c) codes) with true; [reflexivity|].
    symmetry. apply existsb_exists. exists c. split; [exact Hin|].
    apply String.eqb_refl.
  - intros c Hc. rewrite Hget.
    destruct (existsb (String.eqb c) codes) eqn:Ex; [|reflexivity].
    apply existsb_exists in Ex. destruct Ex as [c' [Hin Heq]].
    apply String.eqb_eq in Heq. subst c'.
    destruct Hc as [Hc|Hc]; [contradiction|]. now rewrite Hc.
Qed.

(** ** What [None] means *)

(** X19.  [run_select_stock] returns [None] in exactly two situations:
    the data directory is missing, or no series has been loaded.  Once
    a series is loaded it returns a mapping or raises. *)
Theorem none_means_no_data (args : Args) (etf : option EtfInfo) :
  snd (run_select_stock w args etf) = Ret None
  <-> path_exists w (data_dir args) = false
      \/ snd (load_data w (data_dir args) (resolve_codes w args)) = Ret [].
Proof.
  unfold run_select_stock.
  destruct (path_exists w (data_dir args)) eqn:Hd; simpl negb; cbv iota.
  2:{ split; auto. }
  destruct (resolve_codes w args) as [|c cs] eqn:Hc.
  { split; [intros _; right; reflexivity|reflexivity]. }
  destruct (load_data w (data_dir args) (c :: cs)) as [l [data|e]] eqn:Hl.
  2:{ rewrite bind_Raise. simpl. split; [discriminate|].
      intros [H|H]; discriminate H. }
  rewrite bind_Ret. destruct data as [|kv data].
  { simpl. split; auto. }
  cbn [snd]. split; [|intros [H|H]; discriminate H].
  intros H. exfalso. revert H.
  destruct (resolve_trade_date w args (kv :: data)) as [l1 [td|e]];
    [|discriminate].
  rewrite bind_Ret. cbn [snd].
  destruct (load_config w (config args)) as [l2 [sc|e]]; [|discriminate].
  rewrite bind_Ret. cbn [snd].
  destruct (load_etf_info w args etf) as [l3 [etf'|e]]; [|discriminate].
  rewrite bind_Ret. cbn [snd].
  destruct (py_iter sc) as [cfgs|e]; [|discriminate].
  rewrite bind_lift_Ret.
  destruct (run_selectors w td (kv :: data) etf' cfgs []) as [l4 [r|e]];
    discriminate.
Qed.
End Lookup.

(** X18 in the small world: A is requested twice, X has no file. *)
Lemma load_data_lookup_witness :
  exists l frames,
    load_data (Demo.world Demo.all_files JNull) "data" ["A"; "X"; "A"]
    = (l, Ret frames)
    /\ PyDict.get String.eqb "A" frames = Some (sort_by_date Demo.frame_A)
    /\ PyDict.get String.eqb "X" frames = None.
Proof.
  destruct (load_data_lookup (Demo.world Demo.all_files JNull) "data"
              ["A"; "X"; "A"]) as [l [frames [Hrun [Hhit Hmiss]]]].
  - intros c [<-|[<-|[<-|[]]]] H;
      [now exists Demo.frame_A|discriminate H|now exists Demo.frame_A].
  - exists l, frames. split; [exact Hrun|]. split.
    + apply Hhit; [simpl; auto|reflexivity|reflexivity].
    + apply Hmiss. right. reflexivity.
Defined.
